(** * S2C network measurement tool: client.py and server.py

    A shallow embedding of the packet codec, the echo responder
    ([server.handle_client]), the sender and receiver loops and the metrics
    sampler of [client.NetworkTester], with the properties of the
    specification stated and settled against it.

    Conventions of the embedding.
    - [bytes] objects are [list byte]; a Python [int] is a [Z].
    - Python [float]s (timestamps, latencies, ratios) are modelled by exact
      rationals [Q]: rounding is outside the model, the formulas are the
      ones of the source. [calculate_jitter] is written over the
      arithmetic that it runs on, so that what it returns on IEEE 754
      doubles can be stated next to what it returns on exact numbers.
    - A [dict] is an insertion-ordered association list with unique keys,
      as CPython iterates it.
    - A stream socket is the list of segments still to be delivered; one
      [recv(n)] returns at most [n] bytes of the first segment.
    - Exceptions are explicit outcomes. *)

From Stdlib Require Import String.
From Stdlib Require Import List ZArith QArith Qabs Lia Lqa Bool Arith.
From Stdlib Require Import Strings.Byte.
From Stdlib Require Finite.
From Stdlib Require Floats.
Import ListNotations.

Local Open Scope Z_scope.

(** ** Bytes and [struct] *)

Module Wire.

Definition Z_of_byte (b : byte) : Z := Z.of_N (Byte.to_N b).

Definition byte_of_Z (z : Z) : byte :=
  match Byte.of_N (Z.to_N (z mod 256)) with
  | Some b => b
  | None => x00
  end.

(** [int.from_bytes(bs, 'big')]. *)
Definition be_uint (bs : list byte) : Z :=
  fold_left (fun acc b => acc * 256 + Z_of_byte b) bs 0.

(** The four bytes of an unsigned 32-bit integer, most significant first. *)
Definition be_bytes32 (n : Z) : list byte :=
  [ byte_of_Z (Z.shiftr n 24); byte_of_Z (Z.shiftr n 16);
    byte_of_Z (Z.shiftr n 8); byte_of_Z n ].

Definition uint32_range (n : Z) : bool := (0 <=? n) && (n <? 2 ^ 32).

(** [struct.pack('!II', a, b)]: [None] stands for [struct.error], raised
    when an argument is outside [0, 2^32). *)
Definition pack_II (a b : Z) : option (list byte) :=
  if uint32_range a && uint32_range b
  then Some (be_bytes32 a ++ be_bytes32 b)
  else None.

(** [struct.unpack('!I', bs)[0]]: the buffer must hold exactly 4 bytes. *)
Definition unpack_I (bs : list byte) : option Z :=
  if (length bs =? 4)%nat then Some (be_uint bs) else None.

(** [struct.unpack('!II', bs)]: the buffer must hold exactly 8 bytes. *)
Definition unpack_II (bs : list byte) : option (Z * Z) :=
  if (length bs =? 8)%nat
  then Some (be_uint (firstn 4 bs), be_uint (skipn 4 bs))
  else None.

End Wire.

(** ** [hashlib.md5] (RFC 1321) *)

Module MD5.

Import Wire.

Definition w32 (x : Z) : Z := x mod 2 ^ 32.

Definition not32 (x : Z) : Z := Z.lxor x 0xFFFFFFFF.

Definition rotl32 (x s : Z) : Z :=
  w32 (Z.lor (Z.shiftl x s) (Z.shiftr x (32 - s))).

Definition K : list Z :=
  [ 0xd76aa478; 0xe8c7b756; 0x242070db; 0xc1bdceee;
    0xf57c0faf; 0x4787c62a; 0xa8304613; 0xfd469501;
    0x698098d8; 0x8b44f7af; 0xffff5bb1; 0x895cd7be;
    0x6b901122; 0xfd987193; 0xa679438e; 0x49b40821;
    0xf61e2562; 0xc040b340; 0x265e5a51; 0xe9b6c7aa;
    0xd62f105d; 0x02441453; 0xd8a1e681; 0xe7d3fbc8;
    0x21e1cde6; 0xc33707d6; 0xf4d50d87; 0x455a14ed;
    0xa9e3e905; 0xfcefa3f8; 0x676f02d9; 0x8d2a4c8a;
    0xfffa3942; 0x8771f681; 0x6d9d6122; 0xfde5380c;
    0xa4beea44; 0x4bdecfa9; 0xf6bb4b60; 0xbebfbc70;
    0x289b7ec6; 0xeaa127fa; 0xd4ef3085; 0x04881d05;
    0xd9d4d039; 0xe6db99e5; 0x1fa27cf8; 0xc4ac5665;
    0xf4292244; 0x432aff97; 0xab9423a7; 0xfc93a039;
    0x655b59c3; 0x8f0ccc92; 0xffeff47d; 0x85845dd1;
    0x6fa87e4f; 0xfe2ce6e0; 0xa3014314; 0x4e0811a1;
    0xf7537e82; 0xbd3af235; 0x2ad7d2bb; 0xeb86d391 ].

Definition shifts : list Z :=
  [ 7; 12; 17; 22; 7; 12; 17; 22; 7; 12; 17; 22; 7; 12; 17; 22;
    5; 9; 14; 20; 5; 9; 14; 20; 5; 9; 14; 20; 5; 9; 14; 20;
    4; 11; 16; 23; 4; 11; 16; 23; 4; 11; 16; 23; 4; 11; 16; 23;
    6; 10; 15; 21; 6; 10; 15; 21; 6; 10; 15; 21; 6; 10; 15; 21 ].

(** The chaining value (A, B, C, D). *)
Record regs : Type := Regs { rA : Z; rB : Z; rC : Z; rD : Z }.

Definition init_regs : regs :=
  Regs 0x67452301 0xefcdab89 0x98badcfe 0x10325476.

(** One of the 64 operations of a block; [M] holds its 16 words. *)
Definition round (M : list Z) (r : regs) (i : nat) : regs :=
  let '(Regs a b c d) := r in
  let iz := Z.of_nat i in
  let '(f, g) :=
    if (i <? 16)%nat then
      (Z.lor (Z.land b c) (Z.land (not32 b) d), iz)
    else if (i <? 32)%nat then
      (Z.lor (Z.land d b) (Z.land (not32 d) c), (5 * iz + 1) mod 16)
    else if (i <? 48)%nat then
      (Z.lxor (Z.lxor b c) d, (3 * iz + 5) mod 16)
    else
      (Z.lxor c (Z.lor b (not32 d)), (7 * iz) mod 16) in
  let f' := w32 (f + a + nth i K 0 + nth (Z.to_nat g) M 0) in
  Regs d (w32 (b + rotl32 f' (nth i shifts 0))) b c.

(** A little-endian 32-bit word from (up to) four bytes. *)
Definition le_word (bs : list byte) : Z :=
  fold_right (fun b acc => Z_of_byte b + 256 * acc) 0 bs.

Definition le_bytes32 (n : Z) : list byte :=
  [ byte_of_Z n; byte_of_Z (Z.shiftr n 8);
    byte_of_Z (Z.shiftr n 16); byte_of_Z (Z.shiftr n 24) ].

(** Cut [k] groups of [n] elements off the front of a list. *)
Fixpoint chunks {A : Type} (n k : nat) (l : list A) : list (list A) :=
  match k with
  | O => []
  | S k' => firstn n l :: chunks n k' (skipn n l)
  end.

Definition process_block (r : regs) (block : list byte) : regs :=
  let M := map le_word (chunks 4 16 block) in
  let r' := fold_left (round M) (seq 0 64) r in
  Regs (w32 (rA r + rA r')) (w32 (rB r + rB r'))
       (w32 (rC r + rC r')) (w32 (rD r + rD r')).

(** Message padding: a 1 bit, zeros up to 56 mod 64, the bit length on
    64 bits, least significant byte first. *)
Definition pad (msg : list byte) : list byte :=
  let len := Z.of_nat (length msg) in
  let bits := (8 * len) mod 2 ^ 64 in
  msg ++ [x80] ++ repeat x00 (Z.to_nat ((55 - len) mod 64))
      ++ le_bytes32 bits ++ le_bytes32 (Z.shiftr bits 32).

(** [hashlib.md5(msg).digest()]. *)
Definition md5 (msg : list byte) : list byte :=
  let p := pad msg in
  let r := fold_left process_block (chunks 64 (length p / 64) p) init_regs in
  le_bytes32 (rA r) ++ le_bytes32 (rB r) ++ le_bytes32 (rC r)
    ++ le_bytes32 (rD r).

End MD5.

(** ** Python dictionaries *)

(** Keys with a decidable equality; the two instances are the key types of
    the program: [int] sequence numbers and [str] field names. *)
Class EqKey (K : Type) : Type := {
  keqb : K -> K -> bool;
  keqb_eq : forall a b, keqb a b = true <-> a = b
}.

#[export] Instance EqKey_Z : EqKey Z :=
  {| keqb := Z.eqb; keqb_eq := Z.eqb_eq |}.

#[export] Instance EqKey_string : EqKey string :=
  {| keqb := String.eqb; keqb_eq := String.eqb_eq |}.

Module PyDict.

Section Dict.
Context {K V : Type} `{EqKey K}.

(** Items in insertion order. *)
Definition dict : Type := list (K * V).

Definition empty : dict := [].

(** [d.get(k)] *)
Fixpoint get (d : dict) (k : K) : option V :=
  match d with
  | [] => None
  | (k', v) :: d' => if keqb k' k then Some v else get d' k
  end.

(** [k in d] *)
Definition mem (d : dict) (k : K) : bool :=
  match get d k with Some _ => true | None => false end.

(** [d[k] = v]: an existing key keeps its position, a new key goes last. *)
Fixpoint set (d : dict) (k : K) (v : V) : dict :=
  match d with
  | [] => [(k, v)]
  | (k', v') :: d' =>
      if keqb k' k then (k', v) :: d' else (k', v') :: set d' k v
  end.

(** [list(d.keys())] *)
Definition keys (d : dict) : list K := map fst d.

(** [len(d)] *)
Definition len (d : dict) : Z := Z.of_nat (length d).

(** What every dictionary satisfies: no key occurs twice. *)
Definition wf (d : dict) : Prop := NoDup (keys d).
End Dict.

Arguments dict : clear implicits.

End PyDict.

(** ** Stream sockets *)

Module Socket.

(** The segments that will still arrive on a connection, in order; the
    peer closes after the last one. *)
Definition conn : Type := list (list byte).

(** [conn.recv(n)]: blocks until data is there, returns at most [n] bytes
    of it and [b''] once the peer has closed (or when [n] is 0). *)
Fixpoint recv (n : nat) (c : conn) : list byte * conn :=
  match c with
  | [] => ([], [])
  | [] :: rest => recv n rest
  | seg :: rest =>
      (firstn n seg,
       match skipn n seg with
       | [] => rest
       | later => later :: rest
       end)
  end.

(** Bytes not yet delivered. *)
Definition pending (c : conn) : nat := length (concat c).

End Socket.

(** ** server.py *)

Module Server.

Import Wire Socket.

(** How [handle_client] leaves its loop. *)
Inductive exit : Type :=
| PeerClosed      (* a [recv] returned [b''] *)
| UnpackError     (* [struct.unpack] raised: the header had 1..7 bytes *)
| Unfinished.     (* the iteration bound of the model was reached *)

(** The [while True] loop; [echoed] collects the arguments of the
    [conn.sendall] calls. Writes are taken to succeed. *)
Fixpoint handle_loop (fuel : nat) (packet_size : nat) (c : conn)
    (echoed : list (list byte)) : list (list byte) * exit :=
  match fuel with
  | O => (echoed, Unfinished)
  | S fuel' =>
      let (header, c1) := recv 8 c in
      match header with
      | [] => (echoed, PeerClosed)
      | _ =>
          match unpack_II header with
          | None => (echoed, UnpackError)
          | Some _ =>
              let (data, c2) := recv packet_size c1 in
              match data with
              | [] => (echoed, PeerClosed)
              | _ => handle_loop fuel' packet_size c2
                       (echoed ++ [header ++ data])
              end
          end
      end
  end.

(** [handle_client(conn, addr, packet_size)]. Every iteration that goes on
    consumes at least nine bytes, so the bound is never reached. *)
Definition handle_client (c : conn) (packet_size : nat)
    : list (list byte) * exit :=
  handle_loop (S (pending c)) packet_size c [].

End Server.

(** ** client.py *)

Module Client.

Import Wire Socket.

Local Open Scope Q_scope.

(** A value stored in a metrics row: the sampler produces both [int]s and
    [float]s. *)
Inductive value : Type :=
| VInt (z : Z)
| VFloat (q : Q).

Definition to_Q (v : value) : Q :=
  match v with
  | VInt z => inject_Z z
  | VFloat q => q
  end.

(** The value [self.received_packets[seq_num]]. *)
Record recv_info : Type := RecvInfo {
  recv_time : Q;
  checksum : Z;
  data : list byte
}.

(** One entry of [self.metrics]: a dictionary keyed by column name. *)
Definition sample : Type := PyDict.dict string value.

(** The attributes of [NetworkTester] that the modelled methods use. A
    negative [packet_size] makes [os.urandom] and [recv] raise at once and
    is left out. *)
Record NetworkTester : Type := Tester {
  packet_size : nat;
  duration : Z;
  output_file : string;
  metrics : list sample;
  start_time : Q;
  sequence_number : Z;
  received_packets : PyDict.dict Z recv_info;
  sent_packets : PyDict.dict Z Q;
  stop_event : bool
}.

(** [NetworkTester.__init__]; [now] is the reading of [time.time()]. *)
Definition init (packet_size : nat) (duration : Z) (output_file : string)
    (now : Q) : NetworkTester :=
  {| packet_size := packet_size; duration := duration;
     output_file := output_file; metrics := [];
     start_time := now; sequence_number := 0%Z;
     received_packets := PyDict.empty; sent_packets := PyDict.empty;
     stop_event := false |}.

Definition with_metrics (self : NetworkTester) (m : list sample) :=
  {| packet_size := packet_size self; duration := duration self;
     output_file := output_file self; metrics := m;
     start_time := start_time self;
     sequence_number := sequence_number self;
     received_packets := received_packets self;
     sent_packets := sent_packets self; stop_event := stop_event self |}.

Definition with_sequence_number (self : NetworkTester) (n : Z) :=
  {| packet_size := packet_size self; duration := duration self;
     output_file := output_file self; metrics := metrics self;
     start_time := start_time self; sequence_number := n;
     received_packets := received_packets self;
     sent_packets := sent_packets self; stop_event := stop_event self |}.

Definition with_received_packets (self : NetworkTester)
    (r : PyDict.dict Z recv_info) :=
  {| packet_size := packet_size self; duration := duration self;
     output_file := output_file self; metrics := metrics self;
     start_time := start_time self;
     sequence_number := sequence_number self;
     received_packets := r;
     sent_packets := sent_packets self; stop_event := stop_event self |}.

Definition with_sent_packets (self : NetworkTester)
    (s : PyDict.dict Z Q) :=
  {| packet_size := packet_size self; duration := duration self;
     output_file := output_file self; metrics := metrics self;
     start_time := start_time self;
     sequence_number := sequence_number self;
     received_packets := received_packets self;
     sent_packets := s; stop_event := stop_event self |}.

Definition with_stop_event (self : NetworkTester) (b : bool) :=
  {| packet_size := packet_size self; duration := duration self;
     output_file := output_file self; metrics := metrics self;
     start_time := start_time self;
     sequence_number := sequence_number self;
     received_packets := received_packets self;
     sent_packets := sent_packets self; stop_event := b |}.

(** [struct.unpack('!I', hashlib.md5(data).digest()[:4])[0]]. A digest has
    16 bytes, so the unpacking cannot raise ([unpack_I_digest] below). *)
Definition checksum_of (payload : list byte) : Z :=
  be_uint (firstn 4 (MD5.md5 payload)).

(** *** send_packets *)

(** What one iteration of the sender reads from its environment. *)
Record send_env : Type := SendEnv {
  now : Q;                 (* [time.time()] *)
  urandom : list byte;     (* [os.urandom(self.packet_size)] *)
  sendall_ok : bool        (* whether [sock.sendall] returns *)
}.

Inductive sender_exit : Type :=
| StillSending       (* the trace of the environment ended first *)
| StopObserved       (* [self.stop_event] was set *)
| DurationElapsed    (* the test duration was reached *)
| SendFailed         (* [sendall] raised: the inner handler breaks *)
| PackRaised.        (* [struct.pack] raised: the outer handler stops the run *)

(** Lines 60..63: the frame for a sequence number and a payload. *)
Definition build_packet (seq_num : Z) (payload : list byte)
    : option (list byte) :=
  match pack_II seq_num (checksum_of payload) with
  | Some header => Some (header ++ payload)
  | None => None
  end.

(** The [while not self.stop_event.is_set()] loop of [send_packets];
    [wire] collects the frames that [sendall] transmitted. *)
Fixpoint send_loop (self : NetworkTester) (wire : list (list byte))
    (envs : list send_env) : NetworkTester * list (list byte) * sender_exit :=
  if stop_event self then (self, wire, StopObserved) else
  match envs with
  | [] => (self, wire, StillSending)
  | e :: envs' =>
      let current_time := now e in
      if Qle_bool (inject_Z (duration self)) (current_time - start_time self)
      then (self, wire, DurationElapsed)
      else
        match build_packet (sequence_number self) (urandom e) with
        | None => (with_stop_event self true, wire, PackRaised)
        | Some packet =>
            let self1 :=
              with_sent_packets self
                (PyDict.set (sent_packets self) (sequence_number self)
                   current_time) in
            if sendall_ok e
            then send_loop
                   (with_sequence_number self1 (sequence_number self1 + 1)%Z)
                   (wire ++ [packet]) envs'
            else (self1, wire, SendFailed)
        end
  end.

(** [send_packets], once the connection is made. *)
Definition send_packets (self : NetworkTester) (envs : list send_env) :=
  send_loop self [] envs.

(** *** receive_packets *)

(** What reading one frame off the connection gives. *)
Inductive frame_read : Type :=
| FrameClosed                                 (* a [recv] returned [b''] *)
| FrameRaised                                 (* [struct.unpack] raised *)
| FrameRead (seq_num cks : Z) (payload : list byte) (c' : conn).

(** Lines 95..103: read a header, unpack it, read the payload. *)
Definition read_frame (packet_size : nat) (c : conn) : frame_read :=
  let (header, c1) := recv 8 c in
  match header with
  | [] => FrameClosed
  | _ =>
      match unpack_II header with
      | None => FrameRaised
      | Some (seq_num, cks) =>
          let (payload, c2) := recv packet_size c1 in
          match payload with
          | [] => FrameClosed
          | _ => FrameRead seq_num cks payload c2
          end
      end
  end.

(** What one pass through the receive loop does. *)
Inductive recv_step : Type :=
| RecvClosed                                  (* [break] *)
| RecvRaised                                  (* the exception leaves the loop *)
| RecvStored (self' : NetworkTester) (c' : conn).

(** Lines 95..113: read a frame and store its record at time [t]. *)
Definition receive_once (self : NetworkTester) (c : conn) (t : Q)
    : recv_step :=
  match read_frame (packet_size self) c with
  | FrameClosed => RecvClosed
  | FrameRaised => RecvRaised
  | FrameRead seq_num cks payload c' =>
      RecvStored
        (with_received_packets self
           (PyDict.set (received_packets self) seq_num
              {| recv_time := t; checksum := cks; data := payload |}))
        c'
  end.

Inductive receiver_exit : Type :=
| ReceiverStopped    (* [self.stop_event] was set *)
| ReceiverClosed     (* orderly close *)
| ReceiverRaised     (* the handler printed "Receive error" *)
| ReceiverUnfinished.

(** The loop of [receive_packets] on the accepted connection; [clock i] is
    the reading of [time.time()] in the pass number [i]. *)
Fixpoint receive_loop (fuel : nat) (self : NetworkTester) (c : conn)
    (clock : nat -> Q) (i : nat) : NetworkTester * receiver_exit :=
  match fuel with
  | O => (self, ReceiverUnfinished)
  | S fuel' =>
      if stop_event self then (self, ReceiverStopped) else
      match receive_once self c (clock i) with
      | RecvClosed => (self, ReceiverClosed)
      | RecvRaised => (self, ReceiverRaised)
      | RecvStored self' c' => receive_loop fuel' self' c' clock (S i)
      end
  end.

Definition receive_packets (self : NetworkTester) (c : conn)
    (clock : nat -> Q) : NetworkTester * receiver_exit :=
  receive_loop (S (pending c)) self c clock 0.

(** *** measure_metrics *)

(** [sum(l)] *)
Definition sum (l : list Q) : Q := fold_left Qplus l 0.

Definition Qlen {A : Type} (l : list A) : Q :=
  inject_Z (Z.of_nat (length l)).

(** The numbers of [calculate_jitter] and the operations that it applies
    to them: the [0.0] that it returns, the built-in [sum], [-], [/],
    [abs], and the conversion of [len(latencies)] that [/] makes of its
    integer divisor. *)
Record arithmetic : Type := Arithmetic {
  num : Type;
  zero : num;
  total : list num -> num;
  sub : num -> num -> num;
  div : num -> num -> num;
  absolute : num -> num;
  of_len : nat -> num
}.

(** [calculate_jitter(latencies)] *)
Definition calculate_jitter (A : arithmetic) (latencies : list (num A))
    : num A :=
  match latencies with
  | [] => zero A
  | _ =>
      if (length latencies <? 2)%nat then zero A
      else
        let mean_latency :=
          div A (total A latencies) (of_len A (length latencies)) in
        div A
          (total A
             (map (fun latency => absolute A (sub A latency mean_latency))
                latencies))
          (of_len A (length latencies))
  end.

(** Exact numbers: the arithmetic of the rationals that stand for the
    time stamps and the latencies of the tester. *)
Definition exact : arithmetic :=
  {| num := Q; zero := 0; total := sum; sub := Qminus; div := Qdiv;
     absolute := Qabs; of_len := fun n => inject_Z (Z.of_nat n) |}.

(** The local variables that the loop over [self.sent_packets.items()]
    updates. *)
Record tally : Type := Tally {
  latencies : list Q;
  out_of_order : Z;
  corrupt_packets : Z;
  last_seq_num : Z
}.

Definition tally0 : tally :=
  {| latencies := []; out_of_order := 0; corrupt_packets := 0;
     last_seq_num := -1 |}.

(** The body of the loop, lines 140..153. *)
Definition tally_item (received : PyDict.dict Z recv_info) (acc : tally)
    (item : Z * Q) : tally :=
  let (seq_num, send_time) := item in
  match PyDict.get received seq_num with
  | None => acc
  | Some info =>
      let latency := recv_time info - send_time in
      let data_checksum := checksum_of (data info) in
      {| latencies := latencies acc ++ [latency];
         out_of_order :=
           if (seq_num <? last_seq_num acc)%Z
           then (out_of_order acc + 1)%Z else out_of_order acc;
         corrupt_packets :=
           if negb (data_checksum =? checksum info)%Z
           then (corrupt_packets acc + 1)%Z else corrupt_packets acc;
         last_seq_num := seq_num |}
  end.

Definition tally_all (self : NetworkTester) : tally :=
  fold_left (tally_item (received_packets self)) (sent_packets self) tally0.

(** [packet_loss] of line 132. *)
Definition packet_loss (self : NetworkTester) : value :=
  let sent := PyDict.len (sent_packets self) in
  let received := PyDict.len (received_packets self) in
  if (0 <? sent)%Z
  then VFloat (inject_Z (sent - received) / inject_Z sent)
  else VInt 0.

(** [x * 100] *)
Definition times100 (v : value) : value :=
  match v with
  | VInt z => VInt (z * 100)
  | VFloat q => VFloat (q * 100)
  end.

(** [avg_latency] of line 155. *)
Definition avg_latency (latencies : list Q) : value :=
  match latencies with
  | [] => VInt 0
  | _ => VFloat (sum latencies / Qlen latencies)
  end.

(** [bandwidth] of line 157. *)
Definition bandwidth (self : NetworkTester) (elapsed_time : Q) : value :=
  let received := PyDict.len (received_packets self) in
  if negb (Qle_bool elapsed_time 0)
  then VFloat (inject_Z (received * Z.of_nat (packet_size self) * 8)
               / elapsed_time)
  else VInt 0.

(** The row appended at lines 160..168. *)
Definition make_sample (self : NetworkTester) (elapsed_time : Q) : sample :=
  let t := tally_all self in
  [ ("Time"%string, VFloat elapsed_time);
    ("Bandwidth(bps)"%string, bandwidth self elapsed_time);
    ("Latency(s)"%string, avg_latency (latencies t));
    ("Jitter(s)"%string, VFloat (calculate_jitter exact (latencies t)));
    ("Packet Loss(%)"%string, times100 (packet_loss self));
    ("Corrupt Packets"%string, VInt (corrupt_packets t));
    ("Out-of-Order Packets"%string, VInt (out_of_order t)) ].

(** One pass of the loop of [measure_metrics], after the sleep;
    [current_time] is the reading of [time.time()]. *)
Definition measure_tick (self : NetworkTester) (current_time : Q)
    : NetworkTester :=
  let elapsed_time := current_time - start_time self in
  with_metrics self (metrics self ++ [make_sample self elapsed_time]).

(** The loop of [measure_metrics] over the clock readings of its passes. *)
Fixpoint measure_metrics (self : NetworkTester) (ticks : list Q)
    : NetworkTester :=
  if stop_event self then self else
  match ticks with
  | [] => self
  | t :: ticks' => measure_metrics (measure_tick self t) ticks'
  end.

(** *** save_metrics *)

(** A field of a written row. *)
Inductive cell : Type :=
| CName (s : string)     (* a column name of the header row *)
| CValue (v : value)
| CRest.                 (* [restval], for a key the row lacks *)

Definition csv : Type := list (list cell).

(** [DictWriter._dict_to_list]: [None] stands for the [ValueError] raised
    on a key outside [fieldnames]. *)
Definition dict_to_list (fieldnames : list string) (row : sample)
    : option (list cell) :=
  if forallb (fun k => existsb (String.eqb k) fieldnames) (PyDict.keys row)
  then Some (map (fun k => match PyDict.get row k with
                           | Some v => CValue v
                           | None => CRest
                           end) fieldnames)
  else None.

(** [DictWriter.writerows]: the rows written and whether all were. *)
Fixpoint writerows (fieldnames : list string) (rows : list sample)
    : csv * bool :=
  match rows with
  | [] => ([], true)
  | r :: rows' =>
      match dict_to_list fieldnames r with
      | None => ([], false)
      | Some line =>
          let (lines, ok) := writerows fieldnames rows' in
          (line :: lines, ok)
      end
  end.

(** [save_metrics]: the file written (path and rows), if any, and whether
    the method returned normally. Opening the file succeeds in the model. *)
Definition save_metrics (self : NetworkTester)
    : option (string * csv) * bool :=
  match metrics self with
  | [] => (None, true)
  | first :: _ =>
      let keys := PyDict.keys first in
      let (lines, ok) := writerows keys (metrics self) in
      (Some (output_file self, map CName keys :: lines), ok)
  end.

(** *** Vocabulary of the statements *)

(** The column [name] of a sample, as a number. *)
Definition field (s : sample) (name : string) : option Q :=
  option_map to_Q (PyDict.get s name).

(** The sequence numbers that the sampler's loop finds in both maps, in
    the order in which it visits them. *)
Definition matched (self : NetworkTester) : list Z :=
  filter (PyDict.mem (received_packets self))
         (PyDict.keys (sent_packets self)).

(** Elements of a list smaller than their predecessor, [prev] being the
    predecessor of the first one. *)
Fixpoint descents (prev : Z) (l : list Z) : Z :=
  match l with
  | [] => 0
  | x :: l' => ((if x <? prev then 1 else 0) + descents x l')%Z
  end.

(** The column names in the order of the literal of lines 160..168. *)
Definition columns : list string :=
  [ "Time"; "Bandwidth(bps)"; "Latency(s)"; "Jitter(s)";
    "Packet Loss(%)"; "Corrupt Packets"; "Out-of-Order Packets" ]%string.

(** Whether the sampler's recomputation finds a record corrupt. *)
Definition corrupt_record (info : recv_info) : bool :=
  negb (checksum_of (data info) =? checksum info)%Z.

(** Whether the record stored for [seq_num], if any, is found corrupt. *)
Definition counted_corrupt (received : PyDict.dict Z recv_info)
    (seq_num : Z) : bool :=
  match PyDict.get received seq_num with
  | Some info => corrupt_record info
  | None => false
  end.

(** The records that the sender's passes number [m], [m+1], ... store,
    [n] of them at most, and the frames that they build. *)
Definition sent_records (m n : nat) (envs : list send_env)
    : PyDict.dict Z Q :=
  map (fun ke => (Z.of_nat (fst ke), now (snd ke))) (combine (seq m n) envs).

Definition sent_frames (m n : nat) (envs : list send_env)
    : list (option (list byte)) :=
  map (fun ke => build_packet (Z.of_nat (fst ke)) (urandom (snd ke)))
      (combine (seq m n) envs).

(** The cells of the row written for a sample that has exactly the
    columns of the file. *)
Definition row_values (s : sample) : list cell :=
  map (fun kv => CValue (snd kv)) s.

(** A sample that the sampler made. *)
Definition sampled (s : sample) : Prop :=
  exists self elapsed_time, s = make_sample self elapsed_time.

End Client.

(** ** Double-precision floats

    The arithmetic that the interpreter runs [calculate_jitter] on: the
    latencies are [float] objects, that is IEEE 754 binary64 numbers, and
    every operation rounds to nearest, ties to even. [sum] adds the items
    one by one from left to right, its integer start value 0 leaving the
    first item as it is (CPython up to 3.11; later versions carry a
    correction term along the sum, which is another [total]). The length
    of a list is below 2^63 and is converted as [/] converts an integer
    divisor, to the nearest double. *)

Module Binary64.

Import Floats.PrimFloat Floats.SpecFloat Floats.FloatOps.

Definition binary64 : Client.arithmetic :=
  {| Client.num := float;
     Client.zero := 0%float;
     Client.total := fun l => fold_left PrimFloat.add l 0%float;
     Client.sub := PrimFloat.sub;
     Client.div := PrimFloat.div;
     Client.absolute := PrimFloat.abs;
     Client.of_len := fun n =>
       PrimFloat.of_uint63 (Uint63.of_Z (Z.of_nat n)) |}.

(** The number that a finite double stands for. *)
Definition to_exact (x : float) : option Q :=
  match Prim2SF x with
  | S754_zero _ => Some 0%Q
  | S754_finite s m e =>
      Some ((if s then inject_Z (Z.neg m) else inject_Z (Z.pos m))
            * Qpower 2 e)%Q
  | _ => None
  end.

(** The double nearest to one tenth, [0.1] in the source language:
    7205759403792794 / 2^56. *)
Definition tenth : float := 0x1.999999999999ap-4%float.

End Binary64.

(** ** client.py: [NetworkTester.run]

    [run] starts the sender and the sampler as threads, joins the sender,
    sets the stop flag, joins the sampler and saves the samples; a
    [KeyboardInterrupt] in the main thread sets the flag and saves at once.
    The receiver is not started. The threads are modelled by their program
    points; a schedule is the list of the steps that they take, a step that
    its thread cannot take leaving the system as it is. The sampler's work
    on the maps is done under the lock and is one step; one pass of the
    sender is one step, its only write to the maps being the insertion
    under the lock. An interrupt is taken at the joins only. *)

Module Coordinator.

Import Client.

(** Where the sender thread is. *)
Inductive sender_pc : Type :=
| SConnecting                            (* before [sock.connect] *)
| SLooping                               (* in the [while] loop *)
| SExited (ex : option sender_exit).     (* [None]: the connection failed *)

(** Where the sampler thread is. *)
Inductive sampler_pc : Type :=
| MChecking          (* about to test [while not self.stop_event.is_set()] *)
| MSleeping          (* in [time.sleep(self.measurement_interval)] *)
| MExited.

(** Where the main thread is. *)
Inductive main_pc : Type :=
| JoinSender         (* in [sender_thread.join()] *)
| JoinSampler        (* in [metrics_thread.join()] *)
| Finished.          (* after the [finally] block *)

Record system : Type := System {
  tester : NetworkTester;
  wire : list (list byte);               (* the frames transmitted *)
  sender : sender_pc;
  sampler : sampler_pc;
  main : main_pc;
  saved : option (string * csv);         (* the file written, if any *)
  save_ok : bool                         (* [save_metrics] did not raise *)
}.

(** A step of one thread. *)
Inductive event : Type :=
| EvConnect (ok : bool)    (* the sender's [sock.connect] returns or raises *)
| EvSend (e : send_env)    (* one pass of the sender's loop *)
| EvCheck                  (* the sampler tests its loop condition *)
| EvWake (t : Q)           (* the sampler wakes at time [t] and samples *)
| EvJoin                   (* a join of the main thread returns *)
| EvInterrupt.             (* [KeyboardInterrupt] in the main thread *)

(** The system when both threads have been started. *)
Definition start (self : NetworkTester) : system :=
  {| tester := self; wire := []; sender := SConnecting;
     sampler := MChecking; main := JoinSender; saved := None;
     save_ok := true |}.

Definition with_tester (sys : system) (self : NetworkTester) : system :=
  {| tester := self; wire := wire sys; sender := sender sys;
     sampler := sampler sys; main := main sys; saved := saved sys;
     save_ok := save_ok sys |}.

(** The [finally] block: [self.save_metrics()]. *)
Definition finish (sys : system) (self : NetworkTester) : system :=
  let (file, ok) := save_metrics self in
  {| tester := self; wire := wire sys; sender := sender sys;
     sampler := sampler sys; main := Finished;
     saved := match file with Some f => Some f | None => saved sys end;
     save_ok := ok |}.

Definition step (sys : system) (ev : event) : system :=
  match ev with
  | EvConnect ok =>
      match sender sys with
      | SConnecting =>
          if ok then
            {| tester := tester sys; wire := wire sys; sender := SLooping;
               sampler := sampler sys; main := main sys; saved := saved sys;
               save_ok := save_ok sys |}
          else
            {| tester := with_stop_event (tester sys) true;
               wire := wire sys; sender := SExited None;
               sampler := sampler sys; main := main sys; saved := saved sys;
               save_ok := save_ok sys |}
      | _ => sys
      end
  | EvSend e =>
      match sender sys with
      | SLooping =>
          let '(self', wire', ex) := send_loop (tester sys) (wire sys) [e] in
          {| tester := self'; wire := wire';
             sender := match ex with
                       | StillSending => SLooping
                       | _ => SExited (Some ex)
                       end;
             sampler := sampler sys; main := main sys; saved := saved sys;
             save_ok := save_ok sys |}
      | _ => sys
      end
  | EvCheck =>
      match sampler sys with
      | MChecking =>
          {| tester := tester sys; wire := wire sys; sender := sender sys;
             sampler := if stop_event (tester sys) then MExited
                        else MSleeping;
             main := main sys; saved := saved sys; save_ok := save_ok sys |}
      | _ => sys
      end
  | EvWake t =>
      match sampler sys with
      | MSleeping =>
          {| tester := measure_tick (tester sys) t; wire := wire sys;
             sender := sender sys; sampler := MChecking; main := main sys;
             saved := saved sys; save_ok := save_ok sys |}
      | _ => sys
      end
  | EvJoin =>
      match main sys, sender sys, sampler sys with
      | JoinSender, SExited _, _ =>
          {| tester := with_stop_event (tester sys) true; wire := wire sys;
             sender := sender sys; sampler := sampler sys;
             main := JoinSampler; saved := saved sys;
             save_ok := save_ok sys |}
      | JoinSampler, _, MExited => finish sys (tester sys)
      | _, _, _ => sys
      end
  | EvInterrupt =>
      match main sys with
      | Finished => sys
      | _ => finish sys (with_stop_event (tester sys) true)
      end
  end.

(** [run] under a schedule. *)
Definition run (self : NetworkTester) (schedule : list event) : system :=
  fold_left step schedule (start self).

(** A sample computed with nothing received while the sent map was
    [sent]: no bandwidth, no latency, no jitter, nothing corrupt or out of
    order, and a loss of 0 as long as nothing has been sent, of 100
    percent from the first sent record on. *)
Definition blind_sample (sent : PyDict.dict Z Q) (s : sample) : Prop :=
  (exists b, PyDict.get s "Bandwidth(bps)"%string = Some b /\ (to_Q b == 0)%Q)
  /\ PyDict.get s "Latency(s)"%string = Some (VInt 0)
  /\ PyDict.get s "Jitter(s)"%string = Some (VFloat 0)
  /\ match sent with
     | [] => PyDict.get s "Packet Loss(%)"%string = Some (VInt 0)
     | _ :: _ =>
         exists q, PyDict.get s "Packet Loss(%)"%string = Some (VFloat q) /\
                   (q == 100)%Q
     end
  /\ PyDict.get s "Corrupt Packets"%string = Some (VInt 0)
  /\ PyDict.get s "Out-of-Order Packets"%string = Some (VInt 0).

(** The sent map that the sampler finds at each of its samples, in the
    order of the samples: the one that the tester holds when a sleeping
    sampler wakes. *)
Fixpoint sent_at_samples (sys : system) (schedule : list event)
    : list (PyDict.dict Z Q) :=
  match schedule with
  | [] => []
  | ev :: schedule' =>
      match ev, sampler sys with
      | EvWake _, MSleeping => [sent_packets (tester sys)]
      | _, _ => []
      end ++ sent_at_samples (step sys ev) schedule'
  end.

(** The samples that the sampler still owes once the flag is set: the
    one of the sleep it is in. *)
Definition owed (sys : system) : nat :=
  match sampler sys with MSleeping => 1 | _ => 0 end.

(** What holds of the file and of the threads at the program points of the
    main thread, as long as no interrupt is taken; [out] is the output
    path. *)
Definition settled (out : string) (sys : system) : Prop :=
  output_file (tester sys) = out /\
  Forall sampled (metrics (tester sys)) /\
  (main sys <> Finished -> saved sys = None /\ save_ok sys = true) /\
  (main sys = JoinSampler -> exists ex, sender sys = SExited ex) /\
  (main sys = Finished ->
     sampler sys = MExited /\ (exists ex, sender sys = SExited ex) /\
     (saved sys, save_ok sys) = save_metrics (tester sys)).

End Coordinator.

(** ** generate_report.py

    The second half of [generate_report], lines 29..64, as a function of
    the dictionary [data] that the reading loop of lines 15..27 has built
    (column name to the list of its values). The calls of matplotlib and
    the writing of the HTML file are taken to succeed; a plot is recorded
    by what it was given. *)

Module Report.

Import Ascii.

Local Open Scope string_scope.

(** [s.replace(old, new)] for a pattern [old] of one character. *)
Fixpoint replace (old : ascii) (new : string) (s : string) : string :=
  match s with
  | EmptyString => EmptyString
  | String c s' =>
      if Ascii.eqb c old then new ++ replace old new s'
      else String c (replace old new s')
  end.

(** The name of the image of a metric, line 48. *)
Definition img_file (metric : string) : string :=
  replace " " "_"
    (replace "%" "Percent"
       (replace ")" ""
          (replace "(" ""
             (replace "/" "_" metric)))) ++ ".png".

(** The list [metrics] of line 29. *)
Definition metrics : list string :=
  [ "Bandwidth(bps)"; "Latency(s)"; "Jitter(s)"; "Packet Loss(%)";
    "Corrupt Packets"; "Out-of-Order Packets" ].

(** One figure: the arguments of [plot], [xlabel], [ylabel], [title] and
    [savefig]. *)
Record plot : Type := Plot {
  plot_x : list Q;
  plot_y : list Q;
  plot_xlabel : string;
  plot_ylabel : string;
  plot_title : string;
  plot_file : string
}.

(** The double quote character. *)
Definition dquote : string := String "034" EmptyString.

(** The body of the loop over [metrics], lines 38..54. *)
Definition report_metric (data : PyDict.dict string (list Q))
    (time : list Q) (acc : string * list plot) (metric : string)
    : string * list plot :=
  let (html_content, plots) := acc in
  match PyDict.get data metric with
  | None => (html_content, plots)
  | Some values =>
      let file := img_file metric in
      (html_content
         ++ ("<h2>" ++ metric ++ " over Time</h2>")
         ++ ("<img src=" ++ dquote ++ file ++ dquote ++ " alt=" ++ dquote
               ++ metric ++ " over Time" ++ dquote ++ "><br>"),
       (plots ++ [ {| plot_x := time; plot_y := values;
                      plot_xlabel := "Time (s)"; plot_ylabel := metric;
                      plot_title := metric ++ " over Time";
                      plot_file := file |} ])%list)
  end.

Inductive outcome : Type :=
| Exit1                                        (* [sys.exit(1)] *)
| Written (html : string) (plots : list plot). (* the report and its images *)

(** Lines 29..64. *)
Definition generate_report (data : PyDict.dict string (list Q)) : outcome :=
  match PyDict.get data "Time" with
  | None | Some [] => Exit1
  | Some time =>
      let html_content :=
        "<html><head><title>Network Metrics Report</title></head><body>"
          ++ "<h1>Network Metrics Report</h1>" in
      let (html_content, plots) :=
        fold_left (report_metric data time) metrics (html_content, []) in
      Written (html_content ++ "</body></html>") plots
  end.

(** Whether a character occurs in a string. *)
Fixpoint occurs (c : ascii) (s : string) : bool :=
  match s with
  | EmptyString => false
  | String c' s' => Ascii.eqb c' c || occurs c s'
  end.

End Report.

(** ** The wording of the specification

    Definitions written after the text of the specification, to be
    compared with the ones of the source. *)

Module Spec.

Local Open Scope Q_scope.

(** "arithmetic mean of the latency list (0 if empty)" *)
Definition mean (l : list Q) : Q :=
  match l with
  | [] => 0
  | _ => fold_right Qplus 0 l / inject_Z (Z.of_nat (length l))
  end.

(** "mean absolute deviation of each latency from avg_latency" *)
Definition mean_abs_dev (l : list Q) : Q :=
  mean (map (fun x => Qabs (x - mean l)) l).

(** "(0 if fewer than 2 latency samples)" *)
Definition jitter (l : list Q) : Q :=
  if (length l <? 2)%nat then 0 else mean_abs_dev l.

(** The same three sentences read in an arithmetic [A], every operation
    being the one of [A] and every sum the [sum] of the program. *)
Definition mean_in (A : Client.arithmetic) (l : list (Client.num A))
    : Client.num A :=
  match l with
  | [] => Client.zero A
  | _ => Client.div A (Client.total A l) (Client.of_len A (length l))
  end.

Definition mean_abs_dev_in (A : Client.arithmetic) (l : list (Client.num A))
    : Client.num A :=
  mean_in A
    (map (fun x => Client.absolute A (Client.sub A x (mean_in A l))) l).

Definition jitter_in (A : Client.arithmetic) (l : list (Client.num A))
    : Client.num A :=
  if (length l <? 2)%nat then Client.zero A else mean_abs_dev_in A l.

(** "count a reorder event whenever the current sequence number is less
    than the highest sequence number seen so far in that same iteration" *)
Fixpoint reorder_events (highest : option Z) (l : list Z) : Z :=
  match l with
  | [] => 0
  | x :: l' =>
      match highest with
      | None => reorder_events (Some x) l'
      | Some h =>
          ((if x <? h then 1 else 0) + reorder_events (Some (Z.max h x)) l')%Z
      end
  end.

End Spec.

(** ** Further vocabulary *)

Module More.

Import Client.

(** What holds of every record that the receiver stores: the sequence
    number and the checksum fit 32 bits and the payload has between 1 and
    [ps] bytes. *)
Definition record_ok (ps : nat) (kv : Z * recv_info) : Prop :=
  0 <= fst kv < 2 ^ 32 /\
  0 <= checksum (snd kv) < 2 ^ 32 /\
  (0 < length (data (snd kv)) <= ps)%nat.

(** A record whose stored checksum is the one of its payload. *)
Definition record_intact (kv : Z * recv_info) : Prop :=
  checksum (snd kv) = checksum_of (data (snd kv)).

(** The records that the receiver stores when the frames of the sender's
    passes number [m], [m+1], ... come back whole, [n] of them at most;
    [clock k] is the time of the receiver's pass number [k]. *)
Definition received_records (m n : nat) (clock : nat -> Q)
    (envs : list send_env) : PyDict.dict Z recv_info :=
  map (fun ke => (Z.of_nat (fst ke),
                  {| recv_time := clock (fst ke);
                     checksum := checksum_of (urandom (snd ke));
                     data := urandom (snd ke) |}))
      (combine (seq m n) envs).

(** A record stamped before the duration has elapsed. *)
Definition within_duration (self : NetworkTester) (kv : Z * Q) : Prop :=
  (snd kv - start_time self < inject_Z (duration self))%Q.

End More.

(** * Properties *)

(** ** Bytes, [struct] and the digest *)

Module WireFacts.

Import Wire.

Lemma Z_of_byte_range (b : byte) : 0 <= Z_of_byte b < 256.
Proof.
  unfold Z_of_byte. pose proof (Byte.to_N_bounded b). lia.
Qed.

Lemma Z_of_byte_of_Z (z : Z) : Z_of_byte (byte_of_Z z) = z mod 256.
Proof.
  unfold Z_of_byte, byte_of_Z.
  assert (Hr : 0 <= z mod 256 < 256) by (apply Z.mod_pos_bound; lia).
  destruct (Byte.of_N (Z.to_N (z mod 256))) as [b|] eqn:E.
  - apply Byte.to_of_N in E. rewrite E. apply Z2N.id. lia.
  - apply Byte.of_N_None_iff in E. lia.
Qed.

Lemma byte_of_Z_of_byte (b : byte) : byte_of_Z (Z_of_byte b) = b.
Proof.
  unfold byte_of_Z. pose proof (Z_of_byte_range b) as Hr.
  rewrite Z.mod_small by exact Hr.
  unfold Z_of_byte. rewrite N2Z.id, Byte.of_to_N. reflexivity.
Qed.

Lemma be_uint_be_bytes32 (n : Z) :
  0 <= n < 2 ^ 32 -> be_uint (be_bytes32 n) = n.
Proof.
  intros Hn. unfold be_uint, be_bytes32. cbn [fold_left].
  rewrite !Z_of_byte_of_Z, !Z.shiftr_div_pow2 by lia.
  change (2 ^ 24) with 16777216. change (2 ^ 16) with 65536.
  change (2 ^ 8) with 256. change (2 ^ 32) with 4294967296 in Hn.
  Z.div_mod_to_equations. lia.
Qed.

Lemma be_bytes32_length (n : Z) : length (be_bytes32 n) = 4%nat.
Proof. reflexivity. Qed.

Lemma uint32_range_true (n : Z) :
  uint32_range n = true <-> 0 <= n < 2 ^ 32.
Proof. unfold uint32_range. rewrite andb_true_iff. lia. Qed.

Lemma pack_II_length (a b : Z) (h : list byte) :
  pack_II a b = Some h -> length h = 8%nat.
Proof.
  unfold pack_II. destruct (uint32_range a && uint32_range b);
    [intros [= <-]; reflexivity | discriminate].
Qed.

Lemma unpack_pack_II (a b : Z) (h : list byte) :
  pack_II a b = Some h -> unpack_II h = Some (a, b).
Proof.
  unfold pack_II.
  destruct (uint32_range a && uint32_range b) eqn:E; [|discriminate].
  apply andb_true_iff in E. destruct E as [Ha Hb].
  apply uint32_range_true in Ha, Hb. intros [= <-].
  unfold unpack_II. cbn [length app be_bytes32 Nat.eqb firstn skipn].
  fold (be_bytes32 a). fold (be_bytes32 b).
  rewrite !be_uint_be_bytes32 by assumption. reflexivity.
Qed.

Lemma unpack_II_some (h : list byte) :
  length h = 8%nat -> exists a b, unpack_II h = Some (a, b).
Proof.
  intros Hl. unfold unpack_II. rewrite Hl. cbn. eauto.
Qed.

Lemma unpack_II_none (h : list byte) :
  length h <> 8%nat -> unpack_II h = None.
Proof.
  intros Hl. unfold unpack_II.
  destruct (Nat.eqb_spec (length h) 8); [contradiction | reflexivity].
Qed.

Lemma md5_length (msg : list byte) : length (MD5.md5 msg) = 16%nat.
Proof. unfold MD5.md5. rewrite !length_app. reflexivity. Qed.

(** The unpacking of a digest prefix in the source never raises. *)
Lemma unpack_I_digest (payload : list byte) :
  unpack_I (firstn 4 (MD5.md5 payload)) = Some (Client.checksum_of payload).
Proof.
  unfold unpack_I.
  rewrite length_firstn, md5_length. reflexivity.
Qed.

End WireFacts.

(** ** Test vectors of RFC 1321 for the digest *)

Example md5_empty :
  MD5.md5 [] =
  [ xd4; x1d; x8c; xd9; x8f; x00; xb2; x04;
    xe9; x80; x09; x98; xec; xf8; x42; x7e ].
Proof. vm_compute. reflexivity. Qed.

Example md5_abc :
  MD5.md5 [x61; x62; x63] =
  [ x90; x01; x50; x98; x3c; xd2; x4f; xb0;
    xd6; x96; x3f; x7d; x28; xe1; x7f; x72 ].
Proof. vm_compute. reflexivity. Qed.

Example md5_two_blocks :
  MD5.md5 (repeat x61 70) =
  [ x0f; x5c; x6c; x4e; x74; x0b; xfc; xc0;
    x8c; x3c; x26; xcc; xb2; x67; x3d; x46 ].
Proof. vm_compute. reflexivity. Qed.

(** ** Dictionaries *)

Module PyDictFacts.

Import PyDict.

Section Facts.
Context {K V : Type} `{EqKey K}.
Implicit Types (d : dict K V) (k : K) (v : V).

Lemma keqb_refl k : keqb k k = true.
Proof. apply keqb_eq. reflexivity. Qed.

Lemma keqb_neq k k' : k' <> k -> keqb k' k = false.
Proof.
  intros Hne. destruct (keqb k' k) eqn:E; [|reflexivity].
  apply keqb_eq in E. contradiction.
Qed.

Lemma mem_In d k : mem d k = true <-> In k (keys d).
Proof.
  unfold mem. induction d as [|[k' v'] d IH]; cbn.
  - split; [discriminate | contradiction].
  - destruct (keqb k' k) eqn:E.
    + apply keqb_eq in E. tauto.
    + rewrite IH. split; [tauto|].
      intros [->|Hin]; [|exact Hin].
      rewrite keqb_refl in E. discriminate.
Qed.

Lemma mem_false d k : mem d k = false <-> ~ In k (keys d).
Proof.
  rewrite <- mem_In. destruct (mem d k); split; congruence.
Qed.

Lemma get_None d k : get d k = None <-> ~ In k (keys d).
Proof.
  rewrite <- mem_false. unfold mem.
  destruct (get d k); split; congruence.
Qed.

Lemma set_fresh d k v : ~ In k (keys d) -> set d k v = d ++ [(k, v)].
Proof.
  induction d as [|[k' v'] d IH]; cbn; intros Hn; [reflexivity|].
  rewrite keqb_neq by tauto. rewrite IH by tauto. reflexivity.
Qed.

Lemma keys_set_present d k v : In k (keys d) -> keys (set d k v) = keys d.
Proof.
  induction d as [|[k' v'] d IH]; cbn; intros Hin; [contradiction|].
  destruct (keqb k' k) eqn:E; cbn; [reflexivity|].
  f_equal. apply IH. destruct Hin as [->|Hin]; [|exact Hin].
  rewrite keqb_refl in E. discriminate.
Qed.

Lemma get_set_same d k v : get (set d k v) k = Some v.
Proof.
  induction d as [|[k' v'] d IH]; cbn.
  - rewrite keqb_refl. reflexivity.
  - destruct (keqb k' k) eqn:E; cbn; rewrite E; [reflexivity | exact IH].
Qed.

Lemma get_set_neq d k k' v : k' <> k -> get (set d k v) k' = get d k'.
Proof.
  intros Hne.
  assert (Hk : keqb k k' = false) by (apply keqb_neq; congruence).
  induction d as [|[k0 v0] d IH]; cbn [set get].
  - rewrite Hk. reflexivity.
  - destruct (keqb k0 k) eqn:E; cbn [get].
    + apply keqb_eq in E. subst k0. rewrite Hk. reflexivity.
    + destruct (keqb k0 k'); [reflexivity | exact IH].
Qed.

Lemma get_app_fresh d k v : ~ In k (keys d) -> get (d ++ [(k, v)]) k = Some v.
Proof.
  intros Hn. rewrite <- set_fresh by exact Hn. apply get_set_same.
Qed.

Lemma wf_set d k v : wf d -> wf (set d k v).
Proof.
  unfold wf. intros Hwf.
  destruct (mem d k) eqn:E.
  - apply mem_In in E. rewrite keys_set_present; assumption.
  - apply mem_false in E. rewrite set_fresh by exact E.
    unfold keys. rewrite map_app. cbn.
    apply NoDup_app; [exact Hwf | repeat constructor; intros [] |].
    intros x Hx [<-|[]]. contradiction.
Qed.

Lemma wf_empty : wf (empty : dict K V).
Proof. constructor. Qed.

Lemma len_keys d : len d = Z.of_nat (length (keys d)).
Proof. unfold len, keys. rewrite length_map. reflexivity. Qed.
End Facts.

End PyDictFacts.

(** ** Sockets *)

Module SocketFacts.

Import Socket.

(** A [recv] hands over a prefix of the pending bytes and loses none. *)
Lemma recv_concat (n : nat) (c : conn) :
  concat c = fst (recv n c) ++ concat (snd (recv n c)).
Proof.
  induction c as [|seg rest IH]; [reflexivity|].
  destruct seg as [|b seg']; [exact IH|].
  cbn [recv fst snd]. remember (b :: seg') as seg.
  rewrite <- (firstn_skipn n seg) at 1. cbn [concat].
  destruct (skipn n seg); cbn [concat]; rewrite <- app_assoc; reflexivity.
Qed.

Lemma recv_length (n : nat) (c : conn) : (length (fst (recv n c)) <= n)%nat.
Proof.
  induction c as [|seg rest IH]; cbn; [lia|].
  destruct seg; [exact IH|]. cbn [fst]. apply firstn_le_length.
Qed.

Lemma recv_pending (n : nat) (c : conn) :
  pending c = (length (fst (recv n c)) + pending (snd (recv n c)))%nat.
Proof.
  unfold pending. rewrite (recv_concat n c) at 1. apply length_app.
Qed.

(** Reading from a segment that holds at least [n] bytes. *)
Lemma recv_whole (n : nat) (seg : list byte) (rest : conn) :
  (0 < n <= length seg)%nat ->
  recv n (seg :: rest) =
    (firstn n seg,
     match skipn n seg with [] => rest | later => later :: rest end).
Proof.
  intros Hn. destruct seg; [cbn in Hn; lia | reflexivity].
Qed.

(** Reading from a non-empty segment. *)
Lemma recv_segment (n : nat) (seg : list byte) (rest : conn) :
  seg <> [] ->
  recv n (seg :: rest) =
    (firstn n seg,
     match skipn n seg with [] => rest | later => later :: rest end).
Proof.
  intros Hs. destruct seg; [contradiction | reflexivity].
Qed.

End SocketFacts.

(** ** The packet codec *)

Module CodecFacts.

Import Wire Socket Client WireFacts SocketFacts.

Lemma be_uint_range4 (bs : list byte) :
  length bs = 4%nat -> 0 <= be_uint bs < 2 ^ 32.
Proof.
  destruct bs as [|b0 [|b1 [|b2 [|b3 [|? ?]]]]]; try discriminate.
  intros _. unfold be_uint. cbn [fold_left].
  pose proof (Z_of_byte_range b0). pose proof (Z_of_byte_range b1).
  pose proof (Z_of_byte_range b2). pose proof (Z_of_byte_range b3).
  change (2 ^ 32) with 4294967296. lia.
Qed.

Lemma checksum_of_range (payload : list byte) :
  0 <= checksum_of payload < 2 ^ 32.
Proof.
  unfold checksum_of. apply be_uint_range4.
  rewrite length_firstn, md5_length. reflexivity.
Qed.

Lemma build_packet_some (seq_num : Z) (payload : list byte) :
  0 <= seq_num < 2 ^ 32 ->
  build_packet seq_num payload =
    Some (be_bytes32 seq_num ++ be_bytes32 (checksum_of payload) ++ payload).
Proof.
  intros Hs. unfold build_packet, pack_II.
  assert (Ha : uint32_range seq_num = true) by (apply uint32_range_true; lia).
  assert (Hb : uint32_range (checksum_of payload) = true)
    by (apply uint32_range_true, checksum_of_range).
  rewrite Ha, Hb. cbn [andb]. rewrite <- app_assoc. reflexivity.
Qed.

Lemma build_packet_none (seq_num : Z) (payload : list byte) :
  ~ 0 <= seq_num < 2 ^ 32 -> build_packet seq_num payload = None.
Proof.
  intros Hs. unfold build_packet, pack_II.
  destruct (uint32_range seq_num) eqn:E; [|reflexivity].
  apply uint32_range_true in E. contradiction.
Qed.

(** Reading a frame from a segment that holds all of it. *)
Lemma read_frame_whole (ps : nat) (seg : list byte) (rest : conn) :
  (0 < ps)%nat -> (8 + ps <= length seg)%nat ->
  read_frame ps (seg :: rest) =
    FrameRead (be_uint (firstn 4 seg)) (be_uint (firstn 4 (skipn 4 seg)))
      (firstn ps (skipn 8 seg))
      match skipn (8 + ps) seg with [] => rest | more => more :: rest end.
Proof.
  intros Hps Hlen. unfold read_frame.
  rewrite recv_whole by lia.
  assert (Hh : length (firstn 8 seg) = 8%nat) by (rewrite length_firstn; lia).
  assert (Hp : length (skipn 8 seg) = (length seg - 8)%nat)
    by apply length_skipn.
  destruct (firstn 8 seg) as [|h0 hs] eqn:Eh; [discriminate|].
  rewrite <- Eh in Hh |- *. clear h0 hs Eh.
  unfold unpack_II. rewrite Hh. cbn [Nat.eqb].
  rewrite firstn_firstn. cbn [Nat.min].
  replace (skipn 4 (firstn 8 seg)) with (firstn 4 (skipn 4 seg))
    by (rewrite firstn_skipn_comm; reflexivity).
  destruct (skipn 8 seg) as [|p0 p'] eqn:Ep; [cbn in Hp; lia|].
  rewrite <- Ep in Hp |- *. clear p0 p' Ep. rewrite recv_whole by lia.
  rewrite skipn_skipn, (Nat.add_comm ps 8).
  assert (Hq : length (firstn ps (skipn 8 seg)) = ps)
    by (rewrite length_firstn; lia).
  destruct (firstn ps (skipn 8 seg)) as [|q0 q']; [cbn in Hq; lia|].
  reflexivity.
Qed.

(** C3. Round trip of the codec: for a sequence number in the uint32
    range and a payload of the configured (positive) size, the frame built
    by the sender is the big-endian sequence number, the big-endian
    checksum and the payload, [8 + packet_size] bytes in all, and reading
    it back gives the sequence number, the checksum of the payload and the
    payload, where the checksum is the first four bytes of the MD5 digest
    read as a big-endian unsigned integer. *)
Theorem read_frame_build_packet (ps : nat) (seq_num : Z)
    (payload : list byte) (rest : conn) :
  0 <= seq_num < 2 ^ 32 ->
  length payload = ps ->
  (0 < ps)%nat ->
  exists packet,
    build_packet seq_num payload = Some packet /\
    packet = be_bytes32 seq_num ++ be_bytes32 (checksum_of payload)
               ++ payload /\
    length packet = (8 + ps)%nat /\
    read_frame ps (packet :: rest) =
      FrameRead seq_num (checksum_of payload) payload rest /\
    unpack_I (firstn 4 (MD5.md5 payload)) = Some (checksum_of payload).
Proof.
  intros Hseq Hlen Hps.
  pose proof (checksum_of_range payload) as Hck.
  eexists. split; [apply build_packet_some; exact Hseq|].
  split; [reflexivity|].
  set (packet := be_bytes32 seq_num ++ be_bytes32 (checksum_of payload)
                   ++ payload).
  assert (Hl : length packet = (8 + ps)%nat).
  { unfold packet. rewrite !length_app, !be_bytes32_length. lia. }
  split; [exact Hl|]. split; [|apply unpack_I_digest].
  rewrite read_frame_whole by lia.
  assert (H4 : firstn 4 packet = be_bytes32 seq_num) by reflexivity.
  assert (H8 : firstn 4 (skipn 4 packet) = be_bytes32 (checksum_of payload))
    by reflexivity.
  assert (Hp : skipn 8 packet = payload) by reflexivity.
  rewrite H4, H8, Hp, !be_uint_be_bytes32 by assumption.
  rewrite <- Hlen at 1. rewrite firstn_all.
  replace (skipn (8 + ps) packet) with (@nil byte); [reflexivity|].
  symmetry. apply skipn_all2. lia.
Qed.

Lemma read_frame_build_packet_witness :
  exists packet,
    build_packet 7 [x61; x62; x63] = Some packet /\
    packet = be_bytes32 7 ++ be_bytes32 (checksum_of [x61; x62; x63])
               ++ [x61; x62; x63] /\
    length packet = (8 + 3)%nat /\
    read_frame 3 (packet :: []) =
      FrameRead 7 (checksum_of [x61; x62; x63]) [x61; x62; x63] [] /\
    unpack_I (firstn 4 (MD5.md5 [x61; x62; x63])) =
      Some (checksum_of [x61; x62; x63]).
Proof.
  apply (read_frame_build_packet 3 7 [x61; x62; x63] []);
    [lia | reflexivity | lia].
Defined.

End CodecFacts.

(** ** The echo responder *)

Module ServerFacts.

Import Wire Socket Server WireFacts SocketFacts.

(** The loop ends by itself: the bound of the model is never what stops
    it. *)
Lemma handle_loop_finishes (fuel ps : nat) (c : conn)
    (echoed : list (list byte)) :
  (pending c < fuel)%nat ->
  snd (handle_loop fuel ps c echoed) <> Unfinished.
Proof.
  revert c echoed.
  induction fuel as [|fuel IH]; intros c echoed Hf; [lia|].
  cbn [handle_loop].
  pose proof (recv_pending 8 c) as H1.
  destruct (recv 8 c) as [header c1]. cbn [fst snd] in H1.
  destruct header as [|h0 hs]; [discriminate|].
  destruct (unpack_II (h0 :: hs)) as [[? ?]|]; [|discriminate].
  pose proof (recv_pending ps c1) as H2.
  destruct (recv ps c1) as [payload c2]. cbn [fst snd] in H2.
  destruct payload as [|p0 p']; [discriminate|].
  apply IH. cbn [length] in H1, H2. lia.
Qed.

Lemma handle_client_finishes (c : conn) (ps : nat) :
  snd (handle_client c ps) <> Unfinished.
Proof. apply handle_loop_finishes. lia. Qed.

(** Whatever is echoed is a prefix of what came in. *)
Lemma handle_loop_prefix (fuel ps : nat) (c : conn)
    (echoed : list (list byte)) :
  exists left_over,
    concat echoed ++ concat c =
      concat (fst (handle_loop fuel ps c echoed)) ++ left_over.
Proof.
  revert c echoed.
  induction fuel as [|fuel IH]; intros c echoed; cbn [handle_loop].
  - eexists. reflexivity.
  - pose proof (recv_concat 8 c) as H1.
    destruct (recv 8 c) as [header c1]. cbn [fst snd] in H1.
    destruct header as [|h0 hs]; [eexists; reflexivity|].
    destruct (unpack_II (h0 :: hs)) as [[? ?]|]; [|eexists; reflexivity].
    pose proof (recv_concat ps c1) as H2.
    destruct (recv ps c1) as [payload c2]. cbn [fst snd] in H2.
    destruct payload as [|p0 p']; [eexists; reflexivity|].
    destruct (IH c2 (echoed ++ [(h0 :: hs) ++ p0 :: p'])) as [lo Hlo].
    exists lo. rewrite <- Hlo, H1, H2.
    rewrite concat_app. cbn [concat]. rewrite app_nil_r, <- !app_assoc.
    reflexivity.
Qed.

Lemma handle_client_prefix (c : conn) (ps : nat) :
  exists left_over,
    concat c = concat (fst (handle_client c ps)) ++ left_over.
Proof.
  destruct (handle_loop_prefix (S (pending c)) ps c []) as [lo Hlo].
  exists lo. exact Hlo.
Qed.

(** When every frame arrives as one segment of [8 + packet_size] bytes,
    each is echoed as it came. *)
Lemma handle_loop_whole_frames (ps : nat) (frames : list (list byte)) :
  (0 < ps)%nat ->
  Forall (fun f => length f = (8 + ps)%nat) frames ->
  forall fuel echoed,
    (length frames < fuel)%nat ->
    handle_loop fuel ps frames echoed = (echoed ++ frames, PeerClosed).
Proof.
  intros Hps. induction 1 as [|f frames Hf _ IH]; intros fuel echoed Hfuel.
  - destruct fuel; [cbn in Hfuel; lia|]. cbn. rewrite app_nil_r. reflexivity.
  - destruct fuel as [|fuel]; [cbn in Hfuel; lia|]. cbn [handle_loop].
    rewrite recv_whole by lia.
    assert (Hh : length (firstn 8 f) = 8%nat) by (rewrite length_firstn; lia).
    assert (Hp : length (skipn 8 f) = ps) by (rewrite length_skipn; lia).
    destruct (unpack_II_some _ Hh) as (a & b & Hu). rewrite Hu.
    destruct (firstn 8 f) as [|h0 hs] eqn:Eh; [discriminate|].
    rewrite <- Eh. clear h0 hs Eh Hh Hu.
    destruct (skipn 8 f) as [|p0 p'] eqn:Ep; [cbn in Hp; lia|].
    rewrite <- Ep in Hp |- *. clear p0 p' Ep.
    rewrite recv_whole by lia.
    rewrite (firstn_all2 (n := ps) (skipn 8 f)) by lia.
    rewrite (skipn_all2 (n := ps) (skipn 8 f)) by lia.
    destruct (skipn 8 f) as [|p0 p'] eqn:Ep; [cbn in Hp; lia|].
    rewrite <- Ep. rewrite firstn_skipn.
    rewrite IH by (cbn in Hfuel; lia).
    rewrite <- app_assoc. reflexivity.
Qed.

Lemma handle_client_whole_frames (ps : nat) (frames : list (list byte)) :
  (0 < ps)%nat ->
  Forall (fun f => length f = (8 + ps)%nat) frames ->
  handle_client frames ps = (frames, PeerClosed).
Proof.
  intros Hps Hf. unfold handle_client.
  rewrite (handle_loop_whole_frames ps frames Hps Hf); [reflexivity|].
  unfold pending. clear -Hf Hps.
  induction Hf as [|f frames Hlen _ IH]; cbn; [lia|].
  rewrite length_app. lia.
Qed.

(** C4. The responder does not retry a short read. With [packet_size = 4],
    a well-formed 12-byte frame that arrives as a 10-byte segment followed
    by a 2-byte segment is echoed as its first 10 bytes only: the next
    header read returns the 2 remaining bytes, [struct.unpack] raises and
    the connection is closed. The echoed bytes differ from the frame. *)
Theorem handle_client_short_read :
  exists frame,
    Client.build_packet 0 [x61; x62; x63; x64] = Some frame /\
    length frame = (8 + 4)%nat /\
    handle_client [firstn 10 frame; skipn 10 frame] 4 =
      ([firstn 10 frame], UnpackError) /\
    concat (fst (handle_client [firstn 10 frame; skipn 10 frame] 4))
      <> frame /\
    handle_client [frame] 4 = ([frame], PeerClosed).
Proof.
  eexists. split; [vm_compute; reflexivity|].
  split; [reflexivity|]. split; [vm_compute; reflexivity|].
  split; [vm_compute; discriminate | vm_compute; reflexivity].
Qed.

End ServerFacts.

(** ** The sampler's loop *)

Module TallyFacts.

Import Client PyDictFacts.

Section Tally.
Variable received : PyDict.dict Z recv_info.

Lemma tally_item_unmatched (acc : tally) (k : Z) (t : Q) :
  PyDict.mem received k = false -> tally_item received acc (k, t) = acc.
Proof.
  unfold PyDict.mem, tally_item.
  destruct (PyDict.get received k); [discriminate | reflexivity].
Qed.

(** The reorder counter is the number of descents among the matched
    sequence numbers, in the order of the visit. *)
Lemma out_of_order_fold (items : PyDict.dict Z Q) (acc : tally) :
  out_of_order (fold_left (tally_item received) items acc) =
    (out_of_order acc +
     descents (last_seq_num acc)
       (filter (PyDict.mem received) (PyDict.keys items)))%Z.
Proof.
  revert acc. induction items as [|[k t] items IH]; intros acc.
  - cbn. lia.
  - cbn [fold_left PyDict.keys map fst filter].
    fold (PyDict.keys items). rewrite IH.
    unfold tally_item, PyDict.mem.
    destruct (PyDict.get received k) as [info|]; cbn [descents];
      [|reflexivity].
    cbn [out_of_order last_seq_num].
    destruct (k <? last_seq_num acc)%Z; lia.
Qed.

(** The corruption counter is the number of matched records whose
    recomputed checksum differs from the stored one. *)
Lemma corrupt_packets_fold (items : PyDict.dict Z Q) (acc : tally) :
  corrupt_packets (fold_left (tally_item received) items acc) =
    (corrupt_packets acc +
     Z.of_nat (length (filter (counted_corrupt received)
                         (PyDict.keys items))))%Z.
Proof.
  revert acc. induction items as [|[k t] items IH]; intros acc.
  - cbn. lia.
  - cbn [fold_left PyDict.keys map fst filter].
    fold (PyDict.keys items). rewrite IH.
    unfold tally_item. unfold counted_corrupt at 2. unfold corrupt_record.
    destruct (PyDict.get received k) as [info|]; [|reflexivity].
    cbn [corrupt_packets].
    destruct (negb (checksum_of (data info) =? checksum info)%Z);
      cbn [length]; lia.
Qed.

(** One latency per matched sequence number. *)
Lemma latencies_fold (items : PyDict.dict Z Q) (acc : tally) :
  length (latencies (fold_left (tally_item received) items acc)) =
    (length (latencies acc) +
     length (filter (PyDict.mem received) (PyDict.keys items)))%nat.
Proof.
  revert acc. induction items as [|[k t] items IH]; intros acc.
  - cbn. lia.
  - cbn [fold_left PyDict.keys map fst filter].
    fold (PyDict.keys items). rewrite IH.
    unfold tally_item, PyDict.mem.
    destruct (PyDict.get received k) as [info|]; [|reflexivity].
    cbn [latencies length]. rewrite length_app. cbn. lia.
Qed.

End Tally.

Lemma out_of_order_descents (self : NetworkTester) :
  out_of_order (tally_all self) = descents (-1) (matched self).
Proof.
  unfold tally_all, matched. rewrite out_of_order_fold. reflexivity.
Qed.

Lemma corrupt_packets_count (self : NetworkTester) :
  corrupt_packets (tally_all self) =
    Z.of_nat (length (filter (counted_corrupt (received_packets self))
                        (PyDict.keys (sent_packets self)))).
Proof.
  unfold tally_all. rewrite corrupt_packets_fold. reflexivity.
Qed.

End TallyFacts.

(** ** The receiver *)

Module ReceiverFacts.

Import Wire Socket Client WireFacts SocketFacts CodecFacts TallyFacts.

Lemma read_frame_short_header (ps : nat) (seg : list byte) (rest : conn) :
  (0 < length seg < 8)%nat -> read_frame ps (seg :: rest) = FrameRaised.
Proof.
  intros Hl. unfold read_frame.
  rewrite recv_segment by (intros ->; cbn in Hl; lia).
  rewrite firstn_all2 by lia.
  rewrite unpack_II_none by lia.
  destruct seg; [cbn in Hl; lia | reflexivity].
Qed.

Lemma read_frame_header_only (ps : nat) (seg : list byte) :
  length seg = 8%nat -> read_frame ps [seg] = FrameClosed.
Proof.
  intros Hl. unfold read_frame.
  rewrite recv_segment by (intros ->; discriminate).
  rewrite firstn_all2, skipn_all2 by lia.
  destruct (unpack_II_some seg Hl) as (a & b & ->).
  destruct seg; [discriminate | reflexivity].
Qed.

(** The loop ends by itself. *)
Lemma receive_loop_finishes (fuel : nat) (self : NetworkTester) (c : conn)
    (clock : nat -> Q) (i : nat) :
  (pending c < fuel)%nat ->
  snd (receive_loop fuel self c clock i) <> ReceiverUnfinished.
Proof.
  revert self c i.
  induction fuel as [|fuel IH]; intros self c i Hf; [lia|].
  cbn [receive_loop]. destruct (stop_event self); [discriminate|].
  unfold receive_once, read_frame.
  pose proof (recv_pending 8 c) as H1.
  destruct (recv 8 c) as [header c1]. cbn [fst snd] in H1.
  destruct header as [|h0 hs]; [discriminate|].
  destruct (unpack_II (h0 :: hs)) as [[a b]|]; [|discriminate].
  pose proof (recv_pending (packet_size self) c1) as H2.
  destruct (recv (packet_size self) c1) as [payload c2].
  cbn [fst snd] in H2.
  destruct payload as [|p0 p']; [discriminate|].
  apply IH. cbn [length] in H1, H2. lia.
Qed.

(** C5, as the code has it. With a positive packet size: a segment that
    holds at least [8 + packet_size] bytes is read as (sequence number,
    checksum, payload of [packet_size] bytes); a header read that returns
    1 to 7 bytes makes [struct.unpack] raise, which ends the receiver; an
    orderly close before the header or right after it ends the loop. In
    the last three cases the tester is left as it was: no record is
    stored. *)
Theorem read_frame_outcomes (self : NetworkTester) (seg : list byte)
    (rest : conn) (clock : nat -> Q) :
  (0 < packet_size self)%nat ->
  stop_event self = false ->
  ((8 + packet_size self <= length seg)%nat ->
     read_frame (packet_size self) (seg :: rest) =
       FrameRead (be_uint (firstn 4 seg)) (be_uint (firstn 4 (skipn 4 seg)))
         (firstn (packet_size self) (skipn 8 seg))
         match skipn (8 + packet_size self) seg with
         | [] => rest
         | more => more :: rest
         end) /\
  ((0 < length seg < 8)%nat ->
     read_frame (packet_size self) (seg :: rest) = FrameRaised /\
     receive_packets self (seg :: rest) clock = (self, ReceiverRaised)) /\
  (length seg = 8%nat ->
     read_frame (packet_size self) [seg] = FrameClosed /\
     receive_packets self [seg] clock = (self, ReceiverClosed)) /\
  (read_frame (packet_size self) [] = FrameClosed /\
   receive_packets self [] clock = (self, ReceiverClosed)).
Proof.
  intros Hps Hstop. repeat split.
  - intros Hl. apply read_frame_whole; assumption.
  - apply read_frame_short_header; assumption.
  - unfold receive_packets. cbn [receive_loop]. rewrite Hstop.
    unfold receive_once. rewrite read_frame_short_header by assumption.
    reflexivity.
  - apply read_frame_header_only; assumption.
  - unfold receive_packets. cbn [receive_loop]. rewrite Hstop.
    unfold receive_once. rewrite read_frame_header_only by assumption.
    reflexivity.
  - unfold receive_packets. cbn [receive_loop pending concat length].
    rewrite Hstop. reflexivity.
Qed.

Lemma read_frame_outcomes_witness :
  let self := init 4 60 "metrics.csv" 0 in
  let seg := [x00; x00; x00; x07; x00; x00; x00; x00; x61; x62; x63; x64] in
  read_frame 4 [seg] = FrameRead 7 0 [x61; x62; x63; x64] [].
Proof.
  intros self seg.
  exact (proj1 (read_frame_outcomes self seg [] (fun _ => 0%Q)
                  (Nat.lt_0_succ 3) eq_refl) (Nat.le_refl 12)).
Defined.

(** C5, as stated, fails: with [packet_size = 4], ten bytes are fewer than
    [8 + 4], yet the frame is read and a record is stored for it. *)
Lemma short_frame_is_stored :
  let self := init 4 60 "metrics.csv" 0 in
  let c := [[x00; x00; x00; x07; x00; x00; x00; x00; x61; x62]] in
  (pending c < 8 + packet_size self)%nat /\
  read_frame (packet_size self) c = FrameRead 7 0 [x61; x62] [] /\
  exists self',
    receive_once self c 1 = RecvStored self' [] /\
    received_packets self' =
      [(7, {| recv_time := 1; checksum := 0; data := [x61; x62] |})].
Proof.
  cbn zeta. split; [cbn; lia|]. split; [reflexivity|].
  eexists. split; reflexivity.
Qed.

(** Among sent sequence numbers that are all different, the ones that
    pass a test [f] are the ones other than [s] that pass it, and [s]
    itself when it is there and passes. *)
Lemma filter_but_one (f g : Z -> bool) (s : Z) (l : list Z) :
  NoDup l ->
  (forall k, k <> s -> f k = g k) ->
  Z.of_nat (length (filter f l)) =
    Z.of_nat (length (filter (fun k => negb (k =? s) && g k) l)) +
    (if existsb (Z.eqb s) l && f s then 1 else 0).
Proof.
  intros Hnd Hfg. induction Hnd as [|k l Hk Hnd IH]; [reflexivity|].
  cbn [filter existsb]. destruct (Z.eqb_spec k s) as [->|Hne].
  - rewrite Z.eqb_refl. cbn [negb andb orb].
    assert (He : existsb (Z.eqb s) l = false).
    { destruct (existsb (Z.eqb s) l) eqn:E; [|reflexivity].
      apply existsb_exists in E. destruct E as (x & Hx & Hsx).
      apply Z.eqb_eq in Hsx. subst x. contradiction. }
    rewrite He in IH. cbn [andb] in IH.
    destruct (f s); cbn [length]; lia.
  - replace (s =? k) with false by (symmetry; apply Z.eqb_neq; congruence).
    cbn [negb andb orb]. rewrite (Hfg k Hne).
    destruct (g k); cbn [length]; lia.
Qed.

Lemma mem_existsb {V : Type} (d : PyDict.dict Z V) (k : Z) :
  PyDict.mem d k = existsb (Z.eqb k) (PyDict.keys d).
Proof.
  destruct (existsb (Z.eqb k) (PyDict.keys d)) eqn:E.
  - apply PyDictFacts.mem_In. apply existsb_exists in E.
    destruct E as (x & Hx & Hkx). apply Z.eqb_eq in Hkx. subst x. exact Hx.
  - apply PyDictFacts.mem_false. intros Hin.
    assert (Ht : existsb (Z.eqb k) (PyDict.keys d) = true).
    { apply existsb_exists. exists k. split; [exact Hin | apply Z.eqb_refl]. }
    congruence.
Qed.

(** C9, as the code has it. Once the header read has returned 8 bytes, the
    record is stored with whatever non-empty payload the next read
    returns, of at most [packet_size] bytes and without any check of its
    length. The sampler visits the sent sequence numbers only: the stored
    record adds one to the number of corrupt packets exactly when its
    sequence number is one of the sent ones and the checksum recomputed
    from that payload differs from the one the header carried; the other
    sent sequence numbers count as they did before. *)
Theorem short_payload_is_stored (self : NetworkTester) (c c1 c2 : conn)
    (header payload : list byte) (t : Q) :
  PyDict.wf (sent_packets self) ->
  recv 8 c = (header, c1) ->
  length header = 8%nat ->
  recv (packet_size self) c1 = (payload, c2) ->
  payload <> [] ->
  let seq_num := be_uint (firstn 4 header) in
  let cks := be_uint (skipn 4 header) in
  let info := {| recv_time := t; checksum := cks; data := payload |} in
  let self' :=
    with_received_packets self
      (PyDict.set (received_packets self) seq_num info) in
  receive_once self c t = RecvStored self' c2 /\
  (length payload <= packet_size self)%nat /\
  PyDict.get (received_packets self') seq_num = Some info /\
  counted_corrupt (received_packets self') seq_num =
    negb (checksum_of payload =? cks)%Z /\
  corrupt_packets (tally_all self') =
    Z.of_nat (length (filter (counted_corrupt (received_packets self'))
                        (PyDict.keys (sent_packets self')))) /\
  corrupt_packets (tally_all self') =
    Z.of_nat
      (length
         (filter (fun k => negb (k =? seq_num) &&
                           counted_corrupt (received_packets self) k)
            (PyDict.keys (sent_packets self)))) +
    (if PyDict.mem (sent_packets self) seq_num &&
        negb (checksum_of payload =? cks)
     then 1 else 0).
Proof.
  intros Hwf H1 Hh H2 Hp seq_num cks info self'.
  assert (Hget : PyDict.get (received_packets self') seq_num = Some info)
    by apply PyDictFacts.get_set_same.
  assert (Hcc : counted_corrupt (received_packets self') seq_num =
                negb (checksum_of payload =? cks)%Z).
  { unfold counted_corrupt. rewrite Hget. reflexivity. }
  split; [|split; [|split; [exact Hget|split; [exact Hcc|split]]]].
  - unfold receive_once, read_frame. rewrite H1.
    unfold unpack_II. rewrite Hh. cbn [Nat.eqb]. rewrite H2.
    destruct header; [discriminate|].
    destruct payload; [contradiction | reflexivity].
  - pose proof (recv_length (packet_size self) c1) as Hl.
    rewrite H2 in Hl. exact Hl.
  - apply corrupt_packets_count.
  - rewrite corrupt_packets_count.
    change (sent_packets self') with (sent_packets self).
    rewrite (filter_but_one (counted_corrupt (received_packets self'))
               (counted_corrupt (received_packets self)) seq_num
               (PyDict.keys (sent_packets self)) Hwf).
    + rewrite Hcc, mem_existsb. reflexivity.
    + intros k Hk. unfold counted_corrupt, self'.
      cbn [received_packets with_received_packets].
      rewrite PyDictFacts.get_set_neq by exact Hk. reflexivity.
Qed.

Lemma short_payload_is_stored_witness :
  let self := with_sent_packets (init 4 60 "metrics.csv" 0) [(0%Z, 0%Q)] in
  let header := [x00; x00; x00; x00; xe2; xfc; x71; x4c] in
  let payload := [x61; x62] in
  let info :=
    {| recv_time := 1; checksum := be_uint (skipn 4 header);
       data := payload |} in
  let self' :=
    with_received_packets self
      (PyDict.set (received_packets self) (be_uint (firstn 4 header)) info) in
  receive_once self [header ++ payload] 1 = RecvStored self' [] /\
  (length payload <= packet_size self)%nat /\
  PyDict.get (received_packets self') (be_uint (firstn 4 header))
    = Some info /\
  counted_corrupt (received_packets self') (be_uint (firstn 4 header)) =
    negb (checksum_of payload =? be_uint (skipn 4 header))%Z /\
  corrupt_packets (tally_all self') =
    Z.of_nat (length (filter (counted_corrupt (received_packets self'))
                        (PyDict.keys (sent_packets self')))) /\
  corrupt_packets (tally_all self') =
    Z.of_nat
      (length
         (filter (fun k => negb (k =? be_uint (firstn 4 header)) &&
                           counted_corrupt (received_packets self) k)
            (PyDict.keys (sent_packets self)))) +
    (if PyDict.mem (sent_packets self) (be_uint (firstn 4 header)) &&
        negb (checksum_of payload =? be_uint (skipn 4 header))
     then 1 else 0).
Proof.
  intros self header payload.
  apply (short_payload_is_stored self [header ++ payload] [payload] []
           header payload 1);
    [ repeat constructor; intros []
    | reflexivity | reflexivity | reflexivity | discriminate].
Defined.

(** C9, as stated, fails on a collision of the 32-bit checksum. The
    37-byte payload below and its first two bytes have the same checksum
    (0xa5c7d80b). The sender transmits the payload under sequence number
    0, the receiver's payload read returns two bytes, the truncated record
    is stored, and the sampler counts no corrupt packet. *)
Lemma truncated_record_not_counted :
  let payload := firstn 37 (concat (repeat [x28; x12; x3d] 13)) in
  let self0 := init 37 60 "metrics.csv" 0 in
  exists self1 frame self2,
    send_packets self0
      [ {| now := 0; urandom := payload; sendall_ok := true |} ]
      = (self1, [frame], StillSending) /\
    receive_once self1 [firstn 10 frame] 1 = RecvStored self2 [] /\
    option_map data (PyDict.get (received_packets self2) 0)
      = Some [x28; x12] /\
    (length [x28; x12] < packet_size self2)%nat /\
    matched self2 = [0%Z] /\
    corrupt_packets (tally_all self2) = 0%Z /\
    PyDict.get (make_sample self2 2) "Corrupt Packets"%string
      = Some (VInt 0).
Proof.
  cbn zeta. do 3 eexists.
  split; [vm_compute; reflexivity|].
  split; [vm_compute; reflexivity|].
  repeat split; vm_compute; try reflexivity. lia.
Qed.

End ReceiverFacts.

(** ** The metrics sampler *)

Module SamplerFacts.

Import Client PyDictFacts TallyFacts.

(** *** Reordering *)

Lemma descents_nonneg (prev : Z) (l : list Z) : 0 <= descents prev l.
Proof.
  revert prev. induction l as [|x l IH]; intros prev; cbn; [lia|].
  specialize (IH x). destruct (x <? prev); lia.
Qed.

Lemma last_cons (l : list Z) (x d : Z) : last (x :: l) d = last l x.
Proof.
  revert x d. induction l as [|y l IH]; intros x d; [reflexivity|].
  change (last (x :: y :: l) d) with (last (y :: l) d).
  rewrite (IH y d), (IH y x). reflexivity.
Qed.

Lemma descents_app (prev : Z) (l1 l2 : list Z) :
  descents prev (l1 ++ l2) = descents prev l1 + descents (last l1 prev) l2.
Proof.
  revert prev. induction l1 as [|x l1 IH]; intros prev; [cbn; lia|].
  cbn [app descents]. rewrite IH, last_cons. lia.
Qed.

(** A smaller element somewhere after a larger one forces a descent. *)
Lemma descents_after_larger (a b : Z) (l2 l3 : list Z) :
  b < a -> 1 <= descents a (l2 ++ b :: l3).
Proof.
  revert a. induction l2 as [|x l2 IH]; intros a Hba; cbn [app descents].
  - pose proof (descents_nonneg b l3).
    destruct (Z.ltb_spec b a); lia.
  - destruct (Z.ltb_spec x a) as [Hlt|Hge].
    + pose proof (descents_nonneg x (l2 ++ b :: l3)). lia.
    + specialize (IH x ltac:(lia)). lia.
Qed.

(** C2, as the code has it. The reorder counter is the number of matched
    sequence numbers that are smaller than the one matched just before
    them in the visit of the sent map (initially -1); whenever a sequence
    number [a] is matched before a smaller one [b] in that visit (5 before
    3, say), the counter is at least 1. *)
Theorem out_of_order_after_larger (self : NetworkTester) (a b : Z)
    (l1 l2 l3 : list Z) :
  matched self = l1 ++ a :: l2 ++ b :: l3 ->
  b < a ->
  out_of_order (tally_all self) = descents (-1) (matched self) /\
  1 <= out_of_order (tally_all self).
Proof.
  intros Hm Hba. rewrite out_of_order_descents. split; [reflexivity|].
  rewrite Hm, descents_app. cbn [descents].
  pose proof (descents_nonneg (-1) l1).
  pose proof (descents_after_larger a b l2 l3 Hba).
  destruct (a <? last l1 (-1)); lia.
Qed.

Lemma out_of_order_after_larger_witness :
  let r := {| recv_time := 1; checksum := 0; data := [x61] |} in
  let self :=
    with_received_packets
      (with_sent_packets (init 1 60 "metrics.csv" 0) [(5, 0%Q); (3, 0%Q)])
      [(3, r); (5, r)] in
  out_of_order (tally_all self) = descents (-1) (matched self) /\
  1 <= out_of_order (tally_all self).
Proof.
  intros r self.
  apply (out_of_order_after_larger self 5 3 [] [] []);
    [reflexivity | lia].
Defined.

(** C2, as stated, fails: when 5, 3 and 4 are matched in this order, 4 is
    less than the highest number seen so far, yet the counter is 1, where
    the rule of the specification counts 2. *)
Lemma out_of_order_5_3_4 :
  let r := {| recv_time := 1; checksum := 0; data := [x61] |} in
  let self :=
    with_received_packets
      (with_sent_packets (init 1 60 "metrics.csv" 0)
         [(5, 0%Q); (3, 0%Q); (4, 0%Q)])
      [(5, r); (3, r); (4, r)] in
  matched self = [5; 3; 4] /\
  out_of_order (tally_all self) = 1 /\
  Spec.reorder_events None (matched self) = 2.
Proof. cbn zeta. repeat split; vm_compute; reflexivity. Qed.

(** *** Jitter *)

Local Open Scope Q_scope.

Lemma fold_left_Qplus (l : list Q) (a : Q) :
  fold_left Qplus l a == a + fold_right Qplus 0 l.
Proof.
  revert a. induction l as [|x l IH]; intros a; cbn [fold_left fold_right].
  - ring.
  - rewrite IH. ring.
Qed.

Lemma sum_fold_right (l : list Q) : sum l == fold_right Qplus 0 l.
Proof. unfold sum. rewrite fold_left_Qplus. ring. Qed.

Lemma fold_right_Qplus_ext (f g : Q -> Q) (l : list Q) :
  (forall x, f x == g x) ->
  fold_right Qplus 0 (map f l) == fold_right Qplus 0 (map g l).
Proof.
  intros Hfg. induction l as [|x l IH]; cbn [map fold_right].
  - reflexivity.
  - rewrite IH, (Hfg x). reflexivity.
Qed.

Lemma calculate_jitter_long (l : list Q) :
  (2 <= length l)%nat ->
  calculate_jitter exact l =
    sum (map (fun latency => Qabs (latency - sum l / Qlen l)) l) / Qlen l.
Proof.
  destruct l as [|x [|y l]]; cbn [length]; intros Hl; try lia.
  reflexivity.
Qed.

Lemma spec_mean_nonempty (l : list Q) :
  l <> [] -> Spec.mean l = fold_right Qplus 0 l / Qlen l.
Proof. destruct l; [contradiction | reflexivity]. Qed.

(** On exact numbers the order of a sum does not matter, and the
    function returns the mean absolute deviation. *)
Lemma calculate_jitter_exact (l : list Q) :
  calculate_jitter exact l == Spec.jitter l.
Proof.
  unfold Spec.jitter. destruct (Nat.ltb_spec (length l) 2) as [Hlt|Hge].
  - destruct l as [|x [|y l]]; cbn [length] in Hlt; try lia; reflexivity.
  - rewrite calculate_jitter_long by exact Hge.
    assert (Hne : l <> []) by (intros ->; cbn in Hge; lia).
    unfold Spec.mean_abs_dev.
    rewrite spec_mean_nonempty
      by (intros E; apply map_eq_nil in E; contradiction).
    rewrite (spec_mean_nonempty l Hne).
    unfold Qlen. rewrite length_map. rewrite sum_fold_right.
    apply Qdiv_comp; [|reflexivity].
    apply fold_right_Qplus_ext. intros x.
    rewrite sum_fold_right. reflexivity.
Qed.

Lemma avg_latency_mean (l : list Q) : to_Q (avg_latency l) == Spec.mean l.
Proof.
  destruct l as [|x l]; [reflexivity|].
  rewrite spec_mean_nonempty by discriminate.
  unfold avg_latency, to_Q. rewrite sum_fold_right. reflexivity.
Qed.

(** In every arithmetic the function is the formula of the specification
    with the operations of that arithmetic. *)
Lemma calculate_jitter_in (A : arithmetic) (l : list (num A)) :
  calculate_jitter A l = Spec.jitter_in A l.
Proof.
  destruct l as [|x [|y l]]; [reflexivity | reflexivity |].
  unfold calculate_jitter, Spec.jitter_in, Spec.mean_abs_dev_in.
  cbn [length Nat.ltb Nat.leb map Spec.mean_in].
  rewrite length_map. reflexivity.
Qed.

(** C6, as the code has it. Whatever arithmetic the function runs on,
    double-precision floats included, it returns 0 for fewer than two
    latencies and otherwise the mean absolute deviation formula evaluated
    with the operations of that arithmetic: the sum of the latencies
    divided by their number, then the sum of the absolute differences to
    that quotient, divided by their number. On doubles every one of
    these operations rounds. On exact numbers the result is the mean
    absolute deviation of the latencies from their arithmetic mean, which
    is then the [avg_latency] of the same sample. *)
Theorem calculate_jitter_rounded :
  (forall (A : arithmetic) (l : list (num A)),
     calculate_jitter A l = Spec.jitter_in A l /\
     calculate_jitter A l =
       if (length l <? 2)%nat then zero A
       else
         div A
           (total A
              (map (fun x =>
                      absolute A
                        (sub A x (div A (total A l) (of_len A (length l)))))
                 l))
           (of_len A (length l))) /\
  (forall l : list (num Binary64.binary64),
     calculate_jitter Binary64.binary64 l =
       Spec.jitter_in Binary64.binary64 l) /\
  calculate_jitter Binary64.binary64 [] = zero Binary64.binary64 /\
  (forall x : num Binary64.binary64,
     calculate_jitter Binary64.binary64 [x] = zero Binary64.binary64) /\
  (forall l : list Q,
     calculate_jitter exact l == Spec.jitter l /\
     calculate_jitter exact l ==
       (if (length l <? 2)%nat then 0 else Spec.mean_abs_dev l) /\
     to_Q (avg_latency l) == Spec.mean l).
Proof.
  split; [|split; [|split; [|split]]].
  - intros A l. split; [apply calculate_jitter_in|].
    destruct l as [|x [|y l]]; reflexivity.
  - intros l. apply calculate_jitter_in.
  - reflexivity.
  - intros x. reflexivity.
  - intros l. split; [apply calculate_jitter_exact|].
    split; [apply calculate_jitter_exact | apply avg_latency_mean].
Qed.

(** C6, as stated, fails on doubles. Three latencies of one tenth have
    the mean absolute deviation 0, but their sum is rounded upwards, the
    quotient is the next double after one tenth, and the function returns
    2^-56. *)
Lemma jitter_of_equal_doubles :
  let l := [Binary64.tenth; Binary64.tenth; Binary64.tenth] in
  exists (q r : Q),
    Binary64.to_exact Binary64.tenth = Some q /\
    q == 7205759403792794 / 2 ^ 56 /\
    Spec.jitter [q; q; q] == 0 /\
    Binary64.to_exact (calculate_jitter Binary64.binary64 l) = Some r /\
    r == 1 / 2 ^ 56 /\
    ~ r == Spec.jitter [q; q; q].
Proof.
  cbn zeta. do 2 eexists.
  split; [vm_compute; reflexivity|].
  split; [vm_compute; reflexivity|].
  split; [vm_compute; reflexivity|].
  split; [vm_compute; reflexivity|].
  split; [vm_compute; reflexivity|].
  intros H. vm_compute in H. discriminate H.
Qed.

(** *** Determinism *)

Lemma make_sample_ext (s1 s2 : NetworkTester) (e : Q) :
  sent_packets s1 = sent_packets s2 ->
  received_packets s1 = received_packets s2 ->
  packet_size s1 = packet_size s2 ->
  make_sample s1 e = make_sample s2 e.
Proof.
  intros Hs Hr Hp.
  unfold make_sample, tally_all, bandwidth, packet_loss.
  rewrite Hs, Hr, Hp. reflexivity.
Qed.

(** C8. The sample of a tick is a function of the sent map, the received
    map, the packet size and the elapsed time alone: two testers that
    agree on these get the same sample, whatever the rest of their state;
    a tick changes neither map, so a second tick at the same time appends
    the same sample again. *)
Theorem measure_tick_deterministic (s1 s2 : NetworkTester) (t1 t2 : Q) :
  sent_packets s1 = sent_packets s2 ->
  received_packets s1 = received_packets s2 ->
  packet_size s1 = packet_size s2 ->
  t1 - start_time s1 = t2 - start_time s2 ->
  last (metrics (measure_tick s1 t1)) [] =
    last (metrics (measure_tick s2 t2)) [] /\
  sent_packets (measure_tick s1 t1) = sent_packets s1 /\
  received_packets (measure_tick s1 t1) = received_packets s1 /\
  metrics (measure_tick (measure_tick s1 t1) t1) =
    metrics s1 ++ [ make_sample s1 (t1 - start_time s1);
                    make_sample s1 (t1 - start_time s1) ].
Proof.
  intros Hs Hr Hp He. split; [|split; [reflexivity|split; [reflexivity|]]].
  - unfold measure_tick. cbn [metrics with_metrics].
    rewrite !last_last, He. apply make_sample_ext; assumption.
  - unfold measure_tick. cbn [metrics with_metrics start_time].
    rewrite <- app_assoc. reflexivity.
Qed.

Lemma measure_tick_deterministic_witness :
  let r := {| recv_time := 1; checksum := 0; data := [x61] |} in
  let s1 :=
    with_received_packets
      (with_sent_packets (init 1 60 "metrics.csv" 0) [(0%Z, 0); (1%Z, 1)])
      [(0%Z, r)] in
  let s2 := with_sequence_number (measure_tick s1 2) 2 in
  last (metrics (measure_tick s1 3)) [] =
    last (metrics (measure_tick s2 3)) [] /\
  sent_packets (measure_tick s1 3) = sent_packets s1 /\
  received_packets (measure_tick s1 3) = received_packets s1 /\
  metrics (measure_tick (measure_tick s1 3) 3) =
    metrics s1 ++ [ make_sample s1 (3 - start_time s1);
                    make_sample s1 (3 - start_time s1) ].
Proof.
  intros r s1 s2.
  apply (measure_tick_deterministic s1 s2 3 3); reflexivity.
Defined.

(** *** Packet loss *)







End SamplerFacts.

(** ** The sender *)

Module SenderFacts.

Import Wire Client PyDictFacts CodecFacts.

Lemma fresh_sequence_number (m : nat) :
  ~ In (Z.of_nat m) (map Z.of_nat (seq 0 m)).
Proof.
  intros Hin. apply in_map_iff in Hin. destruct Hin as (k & Hk & Hin).
  apply in_seq in Hin. lia.
Qed.

(** A pass that leaves the loop without a new frame or record. *)
Local Ltac no_new_frame :=
  exists [];
  cbn [length sent_packets sequence_number with_stop_event];
  unfold sent_frames, sent_records; cbn [seq combine map];
  rewrite ?app_nil_r, ?Nat.add_0_r; repeat split; assumption.

(** The invariant of the loop: before the pass number [m] the counter is
    [m] and the keys of the sent map are [0 .. m-1]. *)
Lemma send_loop_records (envs : list send_env) :
  forall (self : NetworkTester) (wire : list (list byte)) (m : nat)
         (self' : NetworkTester) (wire' : list (list byte))
         (ex : sender_exit),
    sequence_number self = Z.of_nat m ->
    PyDict.keys (sent_packets self) = map Z.of_nat (seq 0 m) ->
    send_loop self wire envs = (self', wire', ex) ->
    exists frames,
      wire' = wire ++ frames /\
      map Some frames = sent_frames m (length frames) envs /\
      sequence_number self' = Z.of_nat (m + length frames) /\
      sent_packets self' =
        sent_packets self ++
        sent_records m
          match ex with
          | SendFailed => S (length frames)
          | _ => length frames
          end envs /\
      PyDict.keys (sent_packets self') =
        map Z.of_nat
          (seq 0 (m + match ex with
                       | SendFailed => S (length frames)
                       | _ => length frames
                       end)).
Proof.
  induction envs as [|e envs IH]; intros self wire m self' wire' ex Hseq Hkeys.
  - cbn [send_loop].
    destruct (stop_event self); intros [= <- <- <-]; no_new_frame.
  - cbn [send_loop]. destruct (stop_event self).
    { intros [= <- <- <-]. no_new_frame. }
    destruct (Qle_bool _ _).
    { intros [= <- <- <-]. no_new_frame. }
    destruct (build_packet (sequence_number self) (urandom e))
      as [packet|] eqn:Hpk.
    2:{ intros [= <- <- <-]. no_new_frame. }
    assert (Hset : PyDict.set (sent_packets self) (sequence_number self)
                     (now e) = sent_packets self ++ [(Z.of_nat m, now e)]).
    { rewrite Hseq. apply set_fresh. rewrite Hkeys.
      apply fresh_sequence_number. }
    destruct (sendall_ok e).
    + intros Hrun. apply IH with (m := S m) in Hrun.
      * destruct Hrun as (frames & Hw & Hf & Hs & Hr & Hk).
        exists (packet :: frames). cbn [length].
        split; [rewrite Hw, <- app_assoc; reflexivity|].
        split.
        { unfold sent_frames. cbn [seq combine map fst snd].
          rewrite <- Hseq, Hpk. f_equal. exact Hf. }
        split; [rewrite Hs; f_equal; lia|].
        split.
        { rewrite Hr.
          cbn [sent_packets with_sequence_number with_sent_packets].
          rewrite Hset, <- app_assoc. f_equal.
          destruct ex; reflexivity. }
        rewrite Hk. do 2 f_equal. destruct ex; lia.
      * cbn [sequence_number with_sequence_number with_sent_packets].
        rewrite Hseq. lia.
      * cbn [sent_packets with_sequence_number with_sent_packets].
        rewrite Hset. unfold PyDict.keys in *. rewrite map_app, Hkeys.
        rewrite seq_S, map_app. reflexivity.
    + intros [= <- <- <-]. exists [].
      cbn [length sent_packets sequence_number with_sent_packets].
      rewrite app_nil_r, Nat.add_0_r.
      repeat split; [exact Hseq | rewrite Hset; reflexivity |].
      rewrite Hset. unfold PyDict.keys in *. rewrite map_app, Hkeys.
      rewrite Nat.add_1_r, seq_S, map_app. reflexivity.
Qed.

(** C7, as the code has it. From a fresh tester, when [n] frames have been
    transmitted: the counter is [n]; the frame number [k] carries the
    sequence number [k]; the sent map holds, in this order and each with
    the time of its own pass, the keys [0 .. n-1], and the key [n] as well
    when the run ended on a failed send, whose record is stored before
    the write is tried. No key is stored twice. *)
Theorem send_packets_sequence (ps : nat) (dur : Z) (out : string) (t0 : Q)
    (envs : list send_env) (self' : NetworkTester)
    (wire : list (list byte)) (ex : sender_exit) :
  send_packets (init ps dur out t0) envs = (self', wire, ex) ->
  let n := length wire in
  let recorded := match ex with SendFailed => S n | _ => n end in
  sequence_number self' = Z.of_nat n /\
  map Some wire = sent_frames 0 n envs /\
  sent_packets self' = sent_records 0 recorded envs /\
  PyDict.keys (sent_packets self') = map Z.of_nat (seq 0 recorded) /\
  PyDict.wf (sent_packets self').
Proof.
  intros Hrun n recorded. unfold send_packets in Hrun.
  apply send_loop_records with (m := 0%nat) in Hrun;
    [|reflexivity|reflexivity].
  destruct Hrun as (frames & Hw & Hf & Hs & Hr & Hk).
  cbn [app] in Hw. subst wire. cbn [init sent_packets app] in Hr.
  cbn [Nat.add] in Hs, Hk.
  repeat split; try assumption.
  unfold PyDict.wf. rewrite Hk.
  apply Finite.Injective_map_NoDup; [|apply seq_NoDup].
  intros a b. apply Nat2Z.inj.
Qed.

Lemma send_packets_sequence_witness :
  let envs :=
    [ {| now := 1; urandom := [x61; x62]; sendall_ok := true |};
      {| now := 2; urandom := [x63; x64]; sendall_ok := false |} ] in
  exists self' frame,
    send_packets (init 2 60 "metrics.csv" 0) envs
      = (self', [frame], SendFailed) /\
    sequence_number self' = Z.of_nat (length [frame]) /\
    map Some [frame] = sent_frames 0 (length [frame]) envs /\
    sent_packets self' = sent_records 0 (S (length [frame])) envs /\
    PyDict.keys (sent_packets self')
      = map Z.of_nat (seq 0 (S (length [frame]))) /\
    PyDict.wf (sent_packets self').
Proof.
  intros envs. do 2 eexists. split.
  - vm_compute; reflexivity.
  - apply (send_packets_sequence 2 60 "metrics.csv" 0 envs _ _ SendFailed).
    vm_compute; reflexivity.
Defined.

(** C7, as stated, fails when the run ends on a failed send: no frame was
    transmitted, yet the sent map holds the key 0. *)
Lemma failed_send_is_recorded :
  exists self',
    send_packets (init 2 60 "metrics.csv" 0)
      [ {| now := 1; urandom := [x61; x62]; sendall_ok := false |} ]
      = (self', [], SendFailed) /\
    sequence_number self' = 0 /\
    PyDict.keys (sent_packets self') = [0].
Proof.
  eexists. split; [vm_compute; reflexivity|].
  split; vm_compute; reflexivity.
Qed.

End SenderFacts.

(** ** Persisting the metrics *)

Module SaveFacts.

Import Client.

Lemma make_sample_keys (self : NetworkTester) (e : Q) :
  PyDict.keys (make_sample self e) = columns.
Proof. reflexivity. Qed.

Lemma sampled_keys (s : sample) : sampled s -> PyDict.keys s = columns.
Proof. intros (self & e & ->). apply make_sample_keys. Qed.

(** A sampled row has every column and nothing else. *)
Lemma dict_to_list_sampled (s : sample) :
  sampled s -> dict_to_list columns s = Some (row_values s).
Proof. intros (self & e & ->). reflexivity. Qed.

Lemma writerows_sampled (rows : list sample) :
  Forall sampled rows ->
  writerows columns rows = (map row_values rows, true).
Proof.
  induction 1 as [|s rows Hs _ IH]; [reflexivity|].
  cbn [writerows map]. rewrite (dict_to_list_sampled s Hs), IH. reflexivity.
Qed.

(** The sampler only ever appends rows of its own making. *)
Lemma measure_metrics_sampled (ticks : list Q) (self : NetworkTester) :
  Forall sampled (metrics self) ->
  Forall sampled (metrics (measure_metrics self ticks)).
Proof.
  revert self. induction ticks as [|t ticks IH]; intros self Hm;
    cbn [measure_metrics]; destruct (stop_event self); try exact Hm.
  apply IH. unfold measure_tick. cbn [metrics with_metrics].
  apply Forall_app. split; [exact Hm|].
  constructor; [|constructor]. eexists. eexists. reflexivity.
Qed.

(** C10. With the rows that the sampler made, [save_metrics] writes
    nothing at all when there is no sample, and otherwise writes the
    output file with the header row of the seven column names in their
    fixed order followed by one row per sample, in order; a file is
    written exactly when there is a sample. *)
Theorem save_metrics_output (self : NetworkTester) :
  Forall sampled (metrics self) ->
  (metrics self = [] -> save_metrics self = (None, true)) /\
  (metrics self <> [] ->
     save_metrics self =
       (Some (output_file self,
              map CName columns :: map row_values (metrics self)), true)) /\
  (fst (save_metrics self) <> None <-> metrics self <> []) /\
  columns =
    [ "Time"; "Bandwidth(bps)"; "Latency(s)"; "Jitter(s)";
      "Packet Loss(%)"; "Corrupt Packets"; "Out-of-Order Packets" ]%string.
Proof.
  intros Hm. unfold save_metrics.
  destruct (metrics self) as [|first rows] eqn:E.
  - repeat split; try congruence; cbn; congruence.
  - inversion Hm as [|? ? Hfirst Hrows]; subst.
    rewrite (sampled_keys first Hfirst), (writerows_sampled _ Hm).
    repeat split; try congruence; cbn; congruence.
Qed.

Lemma save_metrics_output_witness :
  let self := measure_tick (init 4 60 "metrics.csv" 0) 1 in
  (metrics self = [] -> save_metrics self = (None, true)) /\
  (metrics self <> [] ->
     save_metrics self =
       (Some (output_file self,
              map CName columns :: map row_values (metrics self)), true)) /\
  (fst (save_metrics self) <> None <-> metrics self <> []) /\
  columns =
    [ "Time"; "Bandwidth(bps)"; "Latency(s)"; "Jitter(s)";
      "Packet Loss(%)"; "Corrupt Packets"; "Out-of-Order Packets" ]%string.
Proof.
  intros self. apply (save_metrics_output self).
  repeat constructor. exists (init 4 60 "metrics.csv" 0), (1 - 0)%Q.
  reflexivity.
Defined.

End SaveFacts.

(** ** The sender's map under the sampler *)

Module RunFacts.

Import Client TallyFacts SenderFacts.

Lemma descents_ascending (f : Z -> bool) (k a : nat) (prev : Z) :
  prev <= Z.of_nat a ->
  descents prev (filter f (map Z.of_nat (seq a k))) = 0.
Proof.
  revert a prev. induction k as [|k IH]; intros a prev Hp; [reflexivity|].
  cbn [seq map filter]. destruct (f (Z.of_nat a)).
  - cbn [descents]. rewrite (IH (S a)) by lia.
    destruct (Z.ltb_spec (Z.of_nat a) prev); lia.
  - apply IH. lia.
Qed.

(** X20. The sender stores its keys in ascending order, so on the sent map
    of any run of the sender the reorder counter stays 0 whatever was
    received. *)
Lemma sender_map_never_reorders (ps : nat) (dur : Z) (out : string) (t0 : Q)
    (envs : list send_env) (received : PyDict.dict Z recv_info) :
  let self' := fst (fst (send_packets (init ps dur out t0) envs)) in
  out_of_order (tally_all (with_received_packets self' received)) = 0.
Proof.
  cbn zeta.
  destruct (send_packets (init ps dur out t0) envs) as [[self' wire] ex] eqn:E.
  unfold send_packets in E.
  apply send_loop_records with (m := 0%nat) in E; [|reflexivity|reflexivity].
  destruct E as (frames & _ & _ & _ & _ & Hk).
  rewrite out_of_order_descents. unfold matched.
  cbn [fst sent_packets received_packets with_received_packets].
  rewrite Hk. apply descents_ascending. lia.
Qed.

End RunFacts.

(** ** More on the echo responder *)

Module ServerMore.

Import Wire Socket Server WireFacts SocketFacts ServerFacts.

(** A read of a positive size returns nothing only when nothing is left. *)
Lemma recv_nothing (n : nat) (c : conn) :
  (0 < n)%nat -> fst (recv n c) = [] -> concat c = [].
Proof.
  intros Hn. induction c as [|seg rest IH]; [reflexivity|].
  destruct seg as [|b seg']; [exact IH|].
  cbn [recv fst]. destruct n; [lia | discriminate].
Qed.

Lemma recv_zero (c : conn) : fst (recv 0 c) = [].
Proof.
  induction c as [|seg rest IH]; [reflexivity|].
  destruct seg; [exact IH | reflexivity].
Qed.

Lemma unpack_II_length (h : list byte) (p : Z * Z) :
  unpack_II h = Some p -> length h = 8%nat.
Proof.
  unfold unpack_II. destruct (Nat.eqb_spec (length h) 8); [auto | discriminate].
Qed.

Lemma handle_loop_left_over (fuel ps : nat) (c : conn)
    (echoed : list (list byte)) :
  exists left_over,
    concat echoed ++ concat c =
      concat (fst (handle_loop fuel ps c echoed)) ++ left_over /\
    (snd (handle_loop fuel ps c echoed) = PeerClosed -> (0 < ps)%nat ->
       left_over = [] \/ length left_over = 8%nat) /\
    (snd (handle_loop fuel ps c echoed) = UnpackError -> left_over <> []).
Proof.
  revert c echoed.
  induction fuel as [|fuel IH]; intros c echoed; cbn [handle_loop].
  - exists (concat c). repeat split; discriminate.
  - pose proof (recv_concat 8 c) as H1.
    pose proof (recv_length 8 c) as L1.
    pose proof (recv_nothing 8 c ltac:(lia)) as N1.
    destruct (recv 8 c) as [header c1]. cbn [fst snd] in H1, L1, N1.
    destruct header as [|h0 hs].
    { exists (concat c). cbn [fst snd]. split; [reflexivity|].
      split; [intros _ _; left; apply N1; reflexivity | discriminate]. }
    destruct (unpack_II (h0 :: hs)) as [p|] eqn:Hu.
    2:{ exists (concat c). cbn [fst snd]. split; [reflexivity|].
        split; [discriminate|]. intros _. rewrite H1. discriminate. }
    pose proof (unpack_II_length _ _ Hu) as Hl.
    pose proof (recv_concat ps c1) as H2.
    destruct (recv ps c1) as [payload c2] eqn:E2. cbn [fst snd] in H2.
    destruct payload as [|p0 p'].
    { exists (concat c). cbn [fst snd]. split; [reflexivity|].
      split; [|discriminate]. intros _ Hps. right.
      rewrite H1, (recv_nothing ps c1 Hps), app_nil_r; [exact Hl|].
      rewrite E2. reflexivity. }
    destruct (IH c2 (echoed ++ [(h0 :: hs) ++ p0 :: p'])) as (lo & Hlo & Hrest).
    exists lo. split; [|exact Hrest].
    rewrite <- Hlo, H1, H2.
    rewrite concat_app. cbn [concat]. rewrite app_nil_r, <- !app_assoc.
    reflexivity.
Qed.

(** X1. Whatever arrives and however it is cut into segments, the loop of
    [handle_client] ends, and what it has echoed is a prefix of what came
    in: it never alters, reorders or invents a byte. With a positive packet
    size, when it ends on an orderly close the only bytes that may be left
    unechoed are a final 8-byte header whose payload never came; when it
    ends on the unpack error, at least one byte is left unechoed. *)
Theorem handle_client_left_over (c : conn) (ps : nat) :
  snd (handle_client c ps) <> Unfinished /\
  exists left_over,
    concat c = concat (fst (handle_client c ps)) ++ left_over /\
    (snd (handle_client c ps) = PeerClosed -> (0 < ps)%nat ->
       left_over = [] \/ length left_over = 8%nat) /\
    (snd (handle_client c ps) = UnpackError -> left_over <> []).
Proof.
  split; [apply handle_client_finishes|].
  destruct (handle_loop_left_over (S (pending c)) ps c []) as (lo & H).
  exists lo. exact H.
Qed.

Lemma handle_client_left_over_witness :
  let c := [[x00; x00; x00; x00; x00; x00; x00; x01; x61; x62];
            [x00; x00; x00; x01; x00; x00; x00; x02]] in
  exists left_over,
    concat c = concat (fst (handle_client c 2)) ++ left_over /\
    length left_over = 8%nat.
Proof.
  intros c.
  destruct (handle_client_left_over c 2) as (_ & lo & Hc & Hclosed & _).
  exists lo. split; [exact Hc|].
  destruct (Hclosed eq_refl (Nat.lt_0_succ 1)) as [->|Hl]; [|exact Hl].
  rewrite app_nil_r in Hc. discriminate Hc.
Defined.

(** X2. When every frame arrives as one segment of [8 + packet_size]
    bytes, with a positive packet size, each is echoed as it came, in
    order, and the loop ends on the orderly close. *)
Theorem echo_of_whole_frames (ps : nat) (frames : list (list byte)) :
  (0 < ps)%nat ->
  Forall (fun f => length f = (8 + ps)%nat) frames ->
  handle_client frames ps = (frames, PeerClosed).
Proof.
  intros Hps Hf. unfold handle_client.
  apply (handle_loop_whole_frames ps frames Hps Hf (S (pending frames)) []).
  unfold pending. clear -Hf Hps.
  induction Hf as [|f frames Hlen _ IH]; cbn; [lia|].
  rewrite length_app. lia.
Qed.

Lemma echo_of_whole_frames_witness :
  let f1 := [x00; x00; x00; x00; x00; x00; x00; x01; x61; x62] in
  let f2 := [x00; x00; x00; x01; x00; x00; x00; x02; x63; x64] in
  handle_client [f1; f2] 2 = ([f1; f2], PeerClosed).
Proof.
  intros f1 f2. apply (echo_of_whole_frames 2 [f1; f2]).
  - lia.
  - repeat constructor.
Defined.

Lemma handle_loop_size_zero (fuel : nat) (c : conn)
    (echoed : list (list byte)) :
  fst (handle_loop fuel 0 c echoed) = echoed.
Proof.
  destruct fuel as [|fuel]; [reflexivity|]. cbn [handle_loop].
  destruct (recv 8 c) as [header c1].
  destruct header as [|h0 hs]; [reflexivity|].
  destruct (unpack_II (h0 :: hs)); [|reflexivity].
  pose proof (recv_zero c1) as Hz.
  destruct (recv 0 c1) as [payload c2]. cbn [fst] in Hz. subst payload.
  reflexivity.
Qed.

(** X3. With a packet size of 0 nothing is ever echoed: the payload read
    of 0 bytes returns [b''], which the loop takes for a close, so it
    stops at the first header, or on the unpack error when that header is
    short. *)
Theorem handle_client_size_zero (c : conn) :
  fst (handle_client c 0) = [] /\
  (snd (handle_client c 0) = PeerClosed \/
   snd (handle_client c 0) = UnpackError).
Proof.
  split; [apply handle_loop_size_zero|].
  unfold handle_client. cbn [handle_loop].
  destruct (recv 8 c) as [header c1].
  destruct header as [|h0 hs]; [left; reflexivity|].
  destruct (unpack_II (h0 :: hs)); [|right; reflexivity].
  pose proof (recv_zero c1) as Hz.
  destruct (recv 0 c1) as [payload c2]. cbn [fst] in Hz. subst payload.
  left. reflexivity.
Qed.

End ServerMore.

(** ** More on the receiver *)

Module ReceiverMore.

Import Wire Socket Client More.
Import WireFacts PyDictFacts SocketFacts CodecFacts ReceiverFacts.

Lemma Forall_set {V : Type} (P : Z * V -> Prop) (d : PyDict.dict Z V)
    (k : Z) (v : V) :
  Forall P d -> P (k, v) -> Forall P (PyDict.set d k v).
Proof.
  intros Hd Hkv. induction Hd as [|[k' v'] d Hx Hd IH]; cbn [PyDict.set].
  - repeat constructor. exact Hkv.
  - cbn [keqb EqKey_Z]. destruct (Z.eqb_spec k' k) as [->|Hne].
    + constructor; assumption.
    + constructor; assumption.
Qed.

Lemma get_set_other {V : Type} (d : PyDict.dict Z V) (k k' : Z) (v : V) :
  k' <> k -> PyDict.get (PyDict.set d k v) k' = PyDict.get d k'.
Proof.
  intros Hne. induction d as [|[k0 v0] d IH]; cbn [PyDict.set PyDict.get].
  - cbn [keqb EqKey_Z]. destruct (Z.eqb_spec k k'); [congruence | reflexivity].
  - cbn [keqb EqKey_Z]. destruct (Z.eqb_spec k0 k) as [->|H0];
      cbn [PyDict.get keqb EqKey_Z].
    + destruct (Z.eqb_spec k k'); [congruence | reflexivity].
    + destruct (Z.eqb_spec k0 k'); [reflexivity | exact IH].
Qed.

Lemma len_set {V : Type} (d : PyDict.dict Z V) (k : Z) (v : V) :
  PyDict.len (PyDict.set d k v) =
    if PyDict.mem d k then PyDict.len d else PyDict.len d + 1.
Proof.
  destruct (PyDict.mem d k) eqn:E.
  - apply mem_In in E. rewrite !len_keys, keys_set_present by exact E.
    reflexivity.
  - apply mem_false in E. rewrite set_fresh by exact E.
    unfold PyDict.len. rewrite length_app. cbn [length]. lia.
Qed.

(** What a frame read gives is within bounds. *)
Lemma read_frame_bounds (ps : nat) (c c' : conn) (seq_num cks : Z)
    (payload : list byte) :
  read_frame ps c = FrameRead seq_num cks payload c' ->
  0 <= seq_num < 2 ^ 32 /\ 0 <= cks < 2 ^ 32 /\
  (0 < length payload <= ps)%nat /\
  (pending c' < pending c)%nat.
Proof.
  unfold read_frame.
  pose proof (recv_pending 8 c) as P1.
  destruct (recv 8 c) as [header c1]. cbn [fst snd] in P1.
  destruct header as [|h0 hs]; [discriminate|].
  destruct (unpack_II (h0 :: hs)) as [[a b]|] eqn:Hu; [|discriminate].
  pose proof (recv_length ps c1) as L2.
  pose proof (recv_pending ps c1) as P2.
  destruct (recv ps c1) as [pl c2]. cbn [fst snd] in L2, P2.
  destruct pl as [|p0 p']; [discriminate|].
  intros [= <- <- <- <-].
  assert (Hl : length (h0 :: hs) = 8%nat).
  { unfold unpack_II in Hu.
    destruct (Nat.eqb_spec (length (h0 :: hs)) 8); [auto | discriminate]. }
  destruct hs as [|h1 [|h2 [|h3 [|h4 [|h5 [|h6 [|h7 [|? ?]]]]]]]];
    try discriminate.
  injection Hu as <- <-.
  split; [apply be_uint_range4; reflexivity|].
  split; [apply be_uint_range4; reflexivity|].
  cbn [length] in *. lia.
Qed.

Lemma receive_loop_keeps (fuel : nat) (self : NetworkTester) (c : conn)
    (clock : nat -> Q) (i : nat) :
  PyDict.wf (received_packets self) ->
  Forall (record_ok (packet_size self)) (received_packets self) ->
  let self' := fst (receive_loop fuel self c clock i) in
  PyDict.wf (received_packets self') /\
  Forall (record_ok (packet_size self')) (received_packets self') /\
  sent_packets self' = sent_packets self /\
  metrics self' = metrics self /\
  sequence_number self' = sequence_number self /\
  (PyDict.len (received_packets self) <= PyDict.len (received_packets self')).
Proof.
  revert self c i.
  induction fuel as [|fuel IH]; intros self c i Hwf Hok; cbn [receive_loop].
  - cbn. repeat split; try assumption. lia.
  - destruct (stop_event self); [cbn; repeat split; try assumption; lia|].
    unfold receive_once.
    destruct (read_frame (packet_size self) c)
      as [| |seq_num cks payload c'] eqn:Hr;
      try (cbn; repeat split; try assumption; lia).
    destruct (read_frame_bounds _ _ _ _ _ _ Hr) as (Hs & Hc & Hp & _).
    set (self1 := with_received_packets self _).
    specialize (IH self1 c' (S i)).
    destruct IH as (H1 & H2 & H3 & H4 & H5 & H6).
    + apply wf_set. exact Hwf.
    + apply Forall_set; [exact Hok|]. repeat split; cbn; lia.
    + cbn zeta. repeat split; try assumption.
      etransitivity; [|exact H6]. unfold self1.
      cbn [received_packets with_received_packets]. rewrite len_set.
      destruct (PyDict.mem _ _); lia.
Qed.

(** X4. Whatever arrives, [receive_packets] ends, keeps one record per
    sequence number, and every record it holds has a sequence number and a
    checksum below 2^32 and a payload of 1 to [packet_size] bytes, provided
    that held before; it never removes a record and changes neither the
    sent map, nor the samples, nor the sender's counter. *)
Theorem receive_packets_keeps (self : NetworkTester) (c : conn)
    (clock : nat -> Q) :
  PyDict.wf (received_packets self) ->
  Forall (record_ok (packet_size self)) (received_packets self) ->
  let self' := fst (receive_packets self c clock) in
  snd (receive_packets self c clock) <> ReceiverUnfinished /\
  PyDict.wf (received_packets self') /\
  Forall (record_ok (packet_size self')) (received_packets self') /\
  sent_packets self' = sent_packets self /\
  metrics self' = metrics self /\
  sequence_number self' = sequence_number self /\
  (PyDict.len (received_packets self) <= PyDict.len (received_packets self')).
Proof.
  intros Hwf Hok. split.
  - apply receive_loop_finishes. lia.
  - apply receive_loop_keeps; assumption.
Qed.

Lemma receive_packets_keeps_witness :
  let self := init 2 60 "metrics.csv" 0 in
  let c := [[x00; x00; x00; x05; x00; x00; x00; x09; x61; x62];
            [x00; x00; x00; x05; x00; x00; x00; x09; x63]] in
  let self' := fst (receive_packets self c (fun _ => 1%Q)) in
  snd (receive_packets self c (fun _ => 1%Q)) <> ReceiverUnfinished /\
  PyDict.wf (received_packets self') /\
  Forall (record_ok (packet_size self')) (received_packets self') /\
  sent_packets self' = sent_packets self /\
  metrics self' = metrics self /\
  sequence_number self' = sequence_number self /\
  (PyDict.len (received_packets self) <= PyDict.len (received_packets self')).
Proof.
  intros self c.
  apply (receive_packets_keeps self c (fun _ => 1%Q)); constructor.
Defined.

(** X5. A frame that repeats a sequence number replaces the record stored
    for it. When the header read returns 8 bytes and the payload read
    returns a non-empty payload, the pass stores, under the sequence number
    of the header, the record made of the time of the pass, the checksum
    of the header and that payload: afterwards the map answers that
    sequence number with this record, the records of all other sequence
    numbers are as before, and the number of records grows by one only
    when the sequence number was new. *)
Theorem receive_once_replaces (self : NetworkTester) (c c1 c2 : conn)
    (header payload : list byte) (t : Q) :
  recv 8 c = (header, c1) ->
  length header = 8%nat ->
  recv (packet_size self) c1 = (payload, c2) ->
  payload <> [] ->
  let seq_num := be_uint (firstn 4 header) in
  let info :=
    {| recv_time := t; checksum := be_uint (skipn 4 header);
       data := payload |} in
  exists self',
    receive_once self c t = RecvStored self' c2 /\
    PyDict.get (received_packets self') seq_num = Some info /\
    (forall k, k <> seq_num ->
       PyDict.get (received_packets self') k =
       PyDict.get (received_packets self) k) /\
    PyDict.len (received_packets self') =
      (if PyDict.mem (received_packets self) seq_num
       then PyDict.len (received_packets self)
       else PyDict.len (received_packets self) + 1) /\
    sent_packets self' = sent_packets self.
Proof.
  intros H1 Hh H2 Hp seq_num info.
  exists (with_received_packets self
            (PyDict.set (received_packets self) seq_num info)).
  split.
  - unfold receive_once, read_frame. rewrite H1.
    unfold unpack_II. rewrite Hh. cbn [Nat.eqb]. rewrite H2.
    destruct header; [discriminate|].
    destruct payload; [contradiction | reflexivity].
  - cbn [received_packets with_received_packets sent_packets].
    split; [apply get_set_same|]. split; [|split; [apply len_set|reflexivity]].
    intros k Hk. apply get_set_other. exact Hk.
Qed.

Lemma receive_once_replaces_witness :
  let self :=
    with_received_packets (init 2 60 "metrics.csv" 0)
      [(5, {| recv_time := 1; checksum := 9; data := [x61; x62] |})] in
  let header := [x00; x00; x00; x05; x00; x00; x00; x07] in
  let info := {| recv_time := 2; checksum := 7; data := [x63] |} in
  exists self',
    receive_once self [header ++ [x63]] 2 = RecvStored self' [] /\
    PyDict.get (received_packets self') 5 = Some info /\
    (forall k, k <> 5 ->
       PyDict.get (received_packets self') k =
       PyDict.get (received_packets self) k) /\
    PyDict.len (received_packets self') =
      (if PyDict.mem (received_packets self) 5
       then PyDict.len (received_packets self)
       else PyDict.len (received_packets self) + 1) /\
    sent_packets self' = sent_packets self.
Proof.
  intros self header info.
  apply (receive_once_replaces self [header ++ [x63]] [[x63]] []
           header [x63] 2);
    [reflexivity | reflexivity | reflexivity | discriminate].
Defined.

End ReceiverMore.

(** ** More on the sampler's counters *)

Module TallyMore.

Import Client More PyDictFacts TallyFacts.

Lemma descents_le_length (prev : Z) (l : list Z) :
  descents prev l <= Z.of_nat (length l).
Proof.
  revert prev. induction l as [|x l IH]; intros prev; cbn [descents length].
  - lia.
  - specialize (IH x). destruct (x <? prev); lia.
Qed.

Lemma descents_ge_0 (prev : Z) (l : list Z) : 0 <= descents prev l.
Proof.
  revert prev. induction l as [|x l IH]; intros prev; cbn [descents]; [lia|].
  specialize (IH x). destruct (x <? prev); lia.
Qed.

Lemma counted_corrupt_matched (received : PyDict.dict Z recv_info) (k : Z) :
  counted_corrupt received k = true -> PyDict.mem received k = true.
Proof.
  unfold counted_corrupt, PyDict.mem.
  destruct (PyDict.get received k); [reflexivity | discriminate].
Qed.

Lemma filter_counted_le (received : PyDict.dict Z recv_info) (l : list Z) :
  (length (filter (counted_corrupt received) l) <=
   length (filter (PyDict.mem received) l))%nat.
Proof.
  induction l as [|k l IH]; cbn [filter]; [lia|].
  destruct (counted_corrupt received k) eqn:E.
  - rewrite (counted_corrupt_matched _ _ E). cbn [length]. lia.
  - destruct (PyDict.mem received k); cbn [length]; lia.
Qed.

Lemma get_In {V : Type} (d : PyDict.dict Z V) (k : Z) (v : V) :
  PyDict.get d k = Some v -> In (k, v) d.
Proof.
  induction d as [|[k' v'] d IH]; cbn [PyDict.get]; [discriminate|].
  cbn [keqb EqKey_Z]. destruct (Z.eqb_spec k' k) as [->|Hne].
  - intros [= ->]. left. reflexivity.
  - intros Hg. right. apply IH. exact Hg.
Qed.

Lemma intact_not_counted (received : PyDict.dict Z recv_info) (k : Z) :
  Forall record_intact received -> counted_corrupt received k = false.
Proof.
  intros Hall. unfold counted_corrupt.
  destruct (PyDict.get received k) as [info|] eqn:Hg; [|reflexivity].
  apply get_In in Hg. rewrite Forall_forall in Hall.
  specialize (Hall _ Hg). unfold record_intact in Hall. cbn [snd] in Hall.
  unfold corrupt_record. rewrite Hall, Z.eqb_refl. reflexivity.
Qed.

Lemma filter_none {A : Type} (f : A -> bool) (l : list A) :
  (forall x, f x = false) -> filter f l = [].
Proof.
  intros Hf. induction l as [|x l IH]; cbn [filter]; [reflexivity|].
  rewrite Hf. exact IH.
Qed.

(** X6. In every tick the counters of the sampler's loop are bounded by
    what was matched: there is one latency per sent sequence number that
    has a received record, the corrupt count and the reorder count lie
    between 0 and that number, and that number is at most the number of
    sent records. Records received under a sequence number that was never
    sent take no part. *)
Theorem tally_bounds (self : NetworkTester) :
  length (latencies (tally_all self)) = length (matched self) /\
  (length (matched self) <= length (sent_packets self))%nat /\
  0 <= corrupt_packets (tally_all self) <= Z.of_nat (length (matched self)) /\
  0 <= out_of_order (tally_all self) <= Z.of_nat (length (matched self)).
Proof.
  split; [|split; [|split]].
  - unfold tally_all. rewrite latencies_fold. reflexivity.
  - unfold matched, PyDict.keys.
    etransitivity; [apply filter_length_le|]. rewrite length_map. lia.
  - rewrite corrupt_packets_count. split; [lia|].
    apply Nat2Z.inj_le. apply filter_counted_le.
  - rewrite out_of_order_descents. split; [apply descents_ge_0|].
    etransitivity; [apply descents_le_length|]. lia.
Qed.

Lemma intact_corrupt_zero (self : NetworkTester) :
  Forall record_intact (received_packets self) ->
  corrupt_packets (tally_all self) = 0.
Proof.
  intros Hall. rewrite corrupt_packets_count, filter_none; [reflexivity|].
  intros k. apply intact_not_counted. exact Hall.
Qed.

(** X7. The corrupt count of a tick is 0 whenever every received record
    carries the checksum of its own payload, whatever was sent. *)
Theorem intact_records_not_corrupt (self : NetworkTester) (e : Q) :
  Forall record_intact (received_packets self) ->
  corrupt_packets (tally_all self) = 0 /\
  PyDict.get (make_sample self e) "Corrupt Packets"%string = Some (VInt 0).
Proof.
  intros Hall.
  assert (H0 : corrupt_packets (tally_all self) = 0).
  { rewrite corrupt_packets_count, filter_none; [reflexivity|].
    intros k. apply intact_not_counted. exact Hall. }
  split; [exact H0|]. cbn. rewrite H0. reflexivity.
Qed.

Lemma intact_records_not_corrupt_witness :
  let self :=
    with_received_packets
      (with_sent_packets (init 4 60 "metrics.csv" 0) [(0, 0%Q)])
      [(0, {| recv_time := 1; checksum := checksum_of [x61; x62; x63; x64];
              data := [x61; x62; x63; x64] |})] in
  corrupt_packets (tally_all self) = 0 /\
  PyDict.get (make_sample self 1) "Corrupt Packets"%string = Some (VInt 0).
Proof.
  intros self. apply (intact_records_not_corrupt self 1).
  repeat constructor.
Defined.

End TallyMore.

(** ** Sender, responder, receiver and sampler together *)

Module LoopbackFacts.

Import Wire Socket Server Client More.
Import WireFacts PyDictFacts SocketFacts CodecFacts ServerFacts TallyFacts.
Import SenderFacts RunFacts TallyMore.

Lemma build_packet_inv (seq_num : Z) (payload f : list byte) :
  build_packet seq_num payload = Some f ->
  0 <= seq_num < 2 ^ 32 /\
  f = be_bytes32 seq_num ++ be_bytes32 (checksum_of payload) ++ payload.
Proof.
  intros Hb.
  destruct (uint32_range seq_num) eqn:E.
  - apply uint32_range_true in E. split; [exact E|].
    rewrite build_packet_some in Hb by exact E. congruence.
  - rewrite build_packet_none in Hb; [discriminate|].
    intros Hr. apply uint32_range_true in Hr. congruence.
Qed.

(** Reading back a frame that the sender built. *)
Lemma read_frame_packet (ps : nat) (seq_num : Z) (payload f : list byte)
    (rest : conn) :
  build_packet seq_num payload = Some f ->
  length payload = ps -> (0 < ps)%nat ->
  length f = (8 + ps)%nat /\
  read_frame ps (f :: rest) = FrameRead seq_num (checksum_of payload)
                                payload rest.
Proof.
  intros Hb Hlen Hps. apply build_packet_inv in Hb. destruct Hb as [Hr ->].
  pose proof (checksum_of_range payload) as Hck.
  set (f := be_bytes32 seq_num ++ be_bytes32 (checksum_of payload)
              ++ payload).
  assert (Hl : length f = (8 + ps)%nat).
  { unfold f. rewrite !length_app, !be_bytes32_length. lia. }
  split; [exact Hl|].
  rewrite read_frame_whole by lia.
  change (firstn 4 f) with (be_bytes32 seq_num).
  change (firstn 4 (skipn 4 f)) with (be_bytes32 (checksum_of payload)).
  change (skipn 8 f) with payload.
  rewrite !be_uint_be_bytes32 by assumption.
  rewrite <- Hlen at 1. rewrite firstn_all.
  rewrite (skipn_all2 f) by lia. reflexivity.
Qed.

Lemma sent_frames_cons (m n : nat) (e : send_env) (envs : list send_env) :
  sent_frames m (S n) (e :: envs) =
    build_packet (Z.of_nat m) (urandom e) :: sent_frames (S m) n envs.
Proof. reflexivity. Qed.

Lemma received_records_cons (m n : nat) (clock : nat -> Q) (e : send_env)
    (envs : list send_env) :
  received_records m (S n) clock (e :: envs) =
    (Z.of_nat m,
     {| recv_time := clock m; checksum := checksum_of (urandom e);
        data := urandom e |}) :: received_records (S m) n clock envs.
Proof. reflexivity. Qed.

(** The frames of the sender have [8 + packet_size] bytes each. *)
Lemma sent_frames_lengths (ps : nat) (frames : list (list byte)) :
  forall (envs : list send_env) (m : nat),
    Forall (fun e => length (urandom e) = ps) envs ->
    (0 < ps)%nat ->
    map Some frames = sent_frames m (length frames) envs ->
    Forall (fun f => length f = (8 + ps)%nat) frames.
Proof.
  induction frames as [|f frames IH]; intros envs m Henv Hps Hf;
    [constructor|].
  destruct envs as [|e envs]; [discriminate|].
  cbn [length map] in Hf. rewrite sent_frames_cons in Hf.
  injection Hf as Hb Hf.
  apply Forall_cons_iff in Henv. destruct Henv as [He Henv'].
  constructor.
  - symmetry in Hb.
    apply (read_frame_packet ps _ _ _ [] Hb He Hps).
  - apply (IH envs (S m)); assumption.
Qed.

(** The receiver on the frames of the sender, each coming back whole. *)
Lemma receive_loop_frames (clock : nat -> Q) (frames : list (list byte)) :
  forall (envs : list send_env) (m : nat) (self : NetworkTester)
         (fuel : nat),
    (0 < packet_size self)%nat ->
    stop_event self = false ->
    Forall (fun e => length (urandom e) = packet_size self) envs ->
    map Some frames = sent_frames m (length frames) envs ->
    PyDict.keys (received_packets self) = map Z.of_nat (seq 0 m) ->
    (length frames < fuel)%nat ->
    receive_loop fuel self frames clock m =
      (with_received_packets self
         (received_packets self ++
          received_records m (length frames) clock envs),
       ReceiverClosed).
Proof.
  induction frames as [|f frames IH];
    intros envs m self fuel Hps Hstop Henv Hf Hkeys Hfuel.
  - destruct fuel; [cbn in Hfuel; lia|]. cbn [receive_loop].
    rewrite Hstop. cbn. rewrite app_nil_r. destruct self; reflexivity.
  - destruct fuel as [|fuel]; [cbn in Hfuel; lia|].
    destruct envs as [|e envs]; [discriminate|].
    cbn [length map] in Hf. rewrite sent_frames_cons in Hf.
    injection Hf as Hb Hf.
    apply Forall_cons_iff in Henv. destruct Henv as [He Henv'].
    symmetry in Hb.
    destruct (read_frame_packet _ _ _ _ frames Hb He Hps) as [_ Hread].
    cbn [receive_loop]. rewrite Hstop. unfold receive_once. rewrite Hread.
    rewrite set_fresh by (rewrite Hkeys; apply fresh_sequence_number).
    rewrite (IH envs (S m)); try assumption.
    + cbn [received_packets with_received_packets length].
      rewrite received_records_cons, <- app_assoc. reflexivity.
    + cbn [received_packets with_received_packets].
      unfold PyDict.keys in *. rewrite map_app, Hkeys, seq_S, map_app.
      reflexivity.
    + cbn [length] in Hfuel. lia.
Qed.

(** What the sender's loop leaves alone. *)
Lemma send_loop_frame (envs : list send_env) :
  forall (self : NetworkTester) (wire : list (list byte))
         (self' : NetworkTester) (wire' : list (list byte))
         (ex : sender_exit),
    stop_event self = false ->
    send_loop self wire envs = (self', wire', ex) ->
    packet_size self' = packet_size self /\
    received_packets self' = received_packets self /\
    metrics self' = metrics self /\
    start_time self' = start_time self /\
    ex <> StopObserved /\
    (stop_event self' = true <-> ex = PackRaised).
Proof.
  induction envs as [|e envs IH]; intros self wire self' wire' ex Hstop;
    cbn [send_loop]; rewrite Hstop.
  - intros [= <- <- <-]. repeat split; intros; cbn in *; congruence.
  - destruct (Qle_bool _ _).
    { intros [= <- <- <-]. repeat split; intros; cbn in *; congruence. }
    destruct (build_packet _ _).
    2:{ intros [= <- <- <-]. repeat split; intros; cbn in *; try congruence; reflexivity. }
    destruct (sendall_ok e).
    + intros Hrun. apply IH in Hrun; [|exact Hstop]. exact Hrun.
    + intros [= <- <- <-]. repeat split; intros; cbn in *; congruence.
Qed.

Lemma pending_frames (ps : nat) (frames : list (list byte)) :
  Forall (fun f => length f = (8 + ps)%nat) frames ->
  (length frames <= pending frames)%nat.
Proof.
  unfold pending. induction 1 as [|f frames Hf _ IH]; cbn [concat length];
    [lia|].
  rewrite length_app. lia.
Qed.

Lemma received_records_keys (m n : nat) (clock : nat -> Q)
    (envs : list send_env) :
  (n <= length envs)%nat ->
  PyDict.keys (received_records m n clock envs) = map Z.of_nat (seq m n).
Proof.
  revert m envs. induction n as [|n IH]; intros m envs Hn; [reflexivity|].
  destruct envs as [|e envs]; [cbn in Hn; lia|].
  rewrite received_records_cons. cbn [PyDict.keys map fst seq].
  f_equal. apply IH. cbn in Hn. lia.
Qed.

Lemma received_records_intact (m n : nat) (clock : nat -> Q)
    (envs : list send_env) :
  Forall record_intact (received_records m n clock envs).
Proof.
  unfold received_records. apply Forall_map, Forall_forall.
  intros ke _. reflexivity.
Qed.

Lemma sent_frames_length (m n : nat) (envs : list send_env)
    (frames : list (list byte)) :
  n = length frames ->
  map Some frames = sent_frames m n envs -> (n <= length envs)%nat.
Proof.
  intros -> Hf. apply (f_equal (@length _)) in Hf.
  unfold sent_frames in Hf.
  rewrite !length_map, length_combine, length_seq in Hf. lia.
Qed.

Lemma filter_all {A : Type} (f : A -> bool) (l : list A) :
  (forall x, In x l -> f x = true) -> filter f l = l.
Proof.
  induction l as [|x l IH]; intros Hf; cbn [filter]; [reflexivity|].
  rewrite (Hf x) by (left; reflexivity).
  f_equal. apply IH. intros y Hy. apply Hf. right. exact Hy.
Qed.

(** The sent keys that have a record, when the records are those of the
    first [n] keys. *)
Lemma matched_prefix (received : PyDict.dict Z recv_info) (n r : nat) :
  PyDict.keys received = map Z.of_nat (seq 0 n) ->
  r = n \/ r = S n ->
  filter (PyDict.mem received) (map Z.of_nat (seq 0 r)) =
    map Z.of_nat (seq 0 n).
Proof.
  intros Hk Hr.
  assert (Hall : filter (PyDict.mem received) (map Z.of_nat (seq 0 n)) =
                 map Z.of_nat (seq 0 n)).
  { apply filter_all. intros k Hin. apply mem_In. rewrite Hk. exact Hin. }
  destruct Hr as [->| ->]; [exact Hall|].
  rewrite seq_S, map_app, filter_app, Hall. cbn [Nat.add map filter].
  replace (PyDict.mem received (Z.of_nat n)) with false;
    [apply app_nil_r|].
  symmetry. apply mem_false. rewrite Hk. apply fresh_sequence_number.
Qed.

(** X8. The whole path on whole frames. Let the sender run from a fresh
    tester with payloads of the configured positive size, let the
    responder echo the frames it wrote, each arriving as one segment, and
    let the receiver read the echoes, each arriving as one segment. Then
    the responder echoes every frame as sent, the receiver ends on the
    orderly close holding one record per transmitted frame (its own
    sequence number, checksum and payload), every transmitted frame is
    matched, no packet is counted corrupt or out of order, and the loss is
    0 unless the run ended on a failed send. *)
Theorem loopback_run (ps : nat) (dur : Z) (out : string) (t0 : Q)
    (envs : list send_env) (clock : nat -> Q)
    (self1 self2 : NetworkTester) (wire : list (list byte))
    (ex : sender_exit) (rx : receiver_exit) :
  (0 < ps)%nat ->
  Forall (fun e => length (urandom e) = ps) envs ->
  send_packets (init ps dur out t0) envs = (self1, wire, ex) ->
  ex <> PackRaised ->
  receive_packets self1 (fst (handle_client wire ps)) clock = (self2, rx) ->
  handle_client wire ps = (wire, PeerClosed) /\
  rx = ReceiverClosed /\
  received_packets self2 = received_records 0 (length wire) clock envs /\
  matched self2 = map Z.of_nat (seq 0 (length wire)) /\
  corrupt_packets (tally_all self2) = 0 /\
  out_of_order (tally_all self2) = 0 /\
  (ex <> SendFailed -> (to_Q (times100 (packet_loss self2)) == 0)%Q).
Proof.
  intros Hps Henv Hrun Hex Hrecv. unfold send_packets in Hrun.
  pose proof (send_loop_frame envs (init ps dur out t0) [] self1 wire ex
                eq_refl Hrun) as (Hsize & Hrc & _ & _ & _ & Hstop).
  apply send_loop_records with (m := 0%nat) in Hrun;
    [|reflexivity|reflexivity].
  destruct Hrun as (frames & Hw & Hf & _ & _ & Hk).
  cbn [app] in Hw. subst frames. cbn [Nat.add] in Hk.
  cbn [init packet_size received_packets] in Hsize, Hrc.
  assert (Hs1 : stop_event self1 = false).
  { destruct (stop_event self1); [|reflexivity].
    exfalso. apply Hex, Hstop. reflexivity. }
  pose proof (sent_frames_lengths ps wire envs 0 Henv Hps Hf) as Hlen.
  pose proof (pending_frames ps wire Hlen) as Hpend.
  pose proof (sent_frames_length _ _ _ _ eq_refl Hf) as Hn.
  assert (Hecho : handle_client wire ps = (wire, PeerClosed)).
  { unfold handle_client.
    apply (handle_loop_whole_frames ps wire Hps Hlen _ []). lia. }
  rewrite Hecho in Hrecv. cbn [fst] in Hrecv.
  unfold receive_packets in Hrecv.
  rewrite (receive_loop_frames clock wire envs 0 self1) in Hrecv;
    try (rewrite ?Hsize; assumption);
    [|rewrite Hrc; reflexivity | lia].
  injection Hrecv as <- <-. rewrite Hrc. unfold PyDict.empty. cbn [app].
  split; [exact Hecho|]. split; [reflexivity|].
  cbn [received_packets with_received_packets sent_packets].
  split; [reflexivity|].
  assert (Hkr : PyDict.keys (received_records 0 (length wire) clock envs) =
                map Z.of_nat (seq 0 (length wire)))
    by (apply received_records_keys; exact Hn).
  assert (Hm : matched
                 (with_received_packets self1
                    (received_records 0 (length wire) clock envs)) =
               map Z.of_nat (seq 0 (length wire))).
  { unfold matched.
    cbn [received_packets with_received_packets sent_packets].
    rewrite Hk. apply matched_prefix; [exact Hkr|].
    destruct ex; auto. }
  split; [exact Hm|]. split; [|split].
  - apply intact_corrupt_zero. apply received_records_intact.
  - rewrite out_of_order_descents. unfold matched.
    cbn [received_packets with_received_packets sent_packets].
    rewrite Hk. apply descents_ascending. lia.
  - intros Hnf. unfold packet_loss.
    cbn [received_packets with_received_packets sent_packets].
    rewrite !len_keys, Hk, Hkr, !length_map, !length_seq.
    replace (match ex with SendFailed => S (length wire) | _ => length wire
             end) with (length wire) by (destruct ex; congruence).
    destruct (0 <? Z.of_nat (length wire)); [|reflexivity].
    cbn [times100 to_Q]. rewrite Z.sub_diag.
    unfold Qdiv. rewrite !Qmult_0_l. reflexivity.
Qed.

Lemma loopback_run_witness :
  let envs :=
    [ {| now := 1; urandom := [x61; x62]; sendall_ok := true |};
      {| now := 2; urandom := [x63; x64]; sendall_ok := true |} ] in
  let clock := fun _ : nat => 3%Q in
  exists self1 wire self2,
    send_packets (init 2 60 "metrics.csv" 0) envs
      = (self1, wire, StillSending) /\
    receive_packets self1 (fst (handle_client wire 2)) clock
      = (self2, ReceiverClosed) /\
    handle_client wire 2 = (wire, PeerClosed) /\
    ReceiverClosed = ReceiverClosed /\
    received_packets self2 = received_records 0 (length wire) clock envs /\
    matched self2 = map Z.of_nat (seq 0 (length wire)) /\
    corrupt_packets (tally_all self2) = 0 /\
    out_of_order (tally_all self2) = 0 /\
    (StillSending <> SendFailed ->
     (to_Q (times100 (packet_loss self2)) == 0)%Q).
Proof.
  intros envs clock. do 3 eexists.
  split; [vm_compute; reflexivity|].
  split; [vm_compute; reflexivity|].
  eapply (loopback_run 2 60 "metrics.csv" 0 envs clock).
  - lia.
  - repeat constructor.
  - vm_compute; reflexivity.
  - discriminate.
  - vm_compute; reflexivity.
Defined.

End LoopbackFacts.

(** ** More on the sender *)

Module SenderMore.

Import Wire Client More.
Import WireFacts PyDictFacts CodecFacts SenderFacts ReceiverMore LoopbackFacts.

Lemma send_loop_within (envs : list send_env) :
  forall (self : NetworkTester) (wire : list (list byte))
         (self' : NetworkTester) (wire' : list (list byte))
         (ex : sender_exit),
    Forall (within_duration self) (sent_packets self) ->
    send_loop self wire envs = (self', wire', ex) ->
    Forall (within_duration self) (sent_packets self').
Proof.
  induction envs as [|e envs IH]; intros self wire self' wire' ex Hall;
    cbn [send_loop].
  - destruct (stop_event self); intros [= <- <- <-]; exact Hall.
  - destruct (stop_event self); [intros [= <- <- <-]; exact Hall|].
    destruct (Qle_bool _ _) eqn:Hd; [intros [= <- <- <-]; exact Hall|].
    destruct (build_packet _ _); [|intros [= <- <- <-]; exact Hall].
    assert (Hnew : Forall (within_duration self)
                     (PyDict.set (sent_packets self) (sequence_number self)
                        (now e))).
    { apply Forall_set; [exact Hall|]. unfold within_duration. cbn [snd].
      apply Qnot_le_lt. intros Hle. apply Qle_bool_iff in Hle. congruence. }
    destruct (sendall_ok e).
    + intros Hrun. apply IH in Hrun; exact Hrun || exact Hnew.
    + intros [= <- <- <-]. exact Hnew.
Qed.

(** X9. The sender never stamps a record at or after the end of the test:
    from a fresh tester, every send time in the sent map is less than
    [duration] after the start time, whatever the clock readings and the
    outcomes of the writes. *)
Theorem send_packets_within_duration (ps : nat) (dur : Z) (out : string)
    (t0 : Q) (envs : list send_env) :
  Forall (fun kv => (snd kv - t0 < inject_Z dur)%Q)
         (sent_packets (fst (fst (send_packets (init ps dur out t0) envs)))).
Proof.
  destruct (send_packets (init ps dur out t0) envs) as [[self' wire] ex] eqn:E.
  unfold send_packets in E.
  apply send_loop_within in E; [exact E | constructor].
Qed.




End SenderMore.

(** ** More on the sampler *)

Module SamplerMore.

Import Client More PyDictFacts TallyFacts SamplerFacts.

Local Open Scope Q_scope.

(** X12. The bandwidth of a sample is never negative, and it is 0 when
    nothing has been received or when no time has elapsed. *)
Theorem bandwidth_nonneg (self : NetworkTester) (e : Q) :
  0 <= to_Q (bandwidth self e) /\
  (received_packets self = [] -> to_Q (bandwidth self e) == 0) /\
  (e <= 0 -> bandwidth self e = VInt 0).
Proof.
  unfold bandwidth.
  destruct (Qle_bool e 0) eqn:He; cbn [negb to_Q].
  - split; [apply Qle_refl|]. split; [reflexivity | reflexivity].
  - assert (Hpos : 0 < e).
    { apply Qnot_le_lt. intros Hle. apply Qle_bool_iff in Hle. congruence. }
    split; [|split].
    + apply Qle_shift_div_l; [exact Hpos|]. rewrite Qmult_0_l.
      change 0 with (inject_Z 0). rewrite <- Zle_Qle.
      unfold PyDict.len. lia.
    + intros ->. cbn. unfold Qdiv. apply Qmult_0_l.
    + intros Hle. exfalso. apply (Qlt_not_le _ _ Hpos Hle).
Qed.

Lemma bandwidth_nonneg_witness :
  let self := with_sent_packets (init 2 60 "metrics.csv" 0) [(0%Z, 1)] in
  to_Q (bandwidth self 3) == 0 /\ bandwidth self (-1) = VInt 0.
Proof.
  intros self.
  destruct (bandwidth_nonneg self 3) as (_ & Hnone & _).
  destruct (bandwidth_nonneg self (-1)) as (_ & _ & Hneg).
  split; [apply Hnone; reflexivity | apply Hneg; discriminate].
Defined.

Lemma measure_metrics_stopped (ticks : list Q) (self : NetworkTester) :
  stop_event self = true -> measure_metrics self ticks = self.
Proof. intros Hs. destruct ticks; cbn [measure_metrics]; rewrite Hs; reflexivity. Qed.

Lemma measure_metrics_appends (ticks : list Q) :
  forall self : NetworkTester,
    stop_event self = false ->
    measure_metrics self ticks =
      with_metrics self
        (metrics self ++
         map (fun t => make_sample self (t - start_time self)) ticks).
Proof.
  induction ticks as [|t ticks IH]; intros self Hs; cbn [measure_metrics];
    rewrite Hs.
  - cbn [map]. rewrite app_nil_r. destruct self; reflexivity.
  - rewrite IH by exact Hs. unfold measure_tick.
    cbn [metrics with_metrics start_time map].
    rewrite <- app_assoc. reflexivity.
Qed.

(** X13. The sampler only appends: run over the clock readings of its
    passes with the maps unchanged in between, it leaves the earlier
    samples as they were and adds one sample per pass, in order, each
    computed from the same maps at its own elapsed time; with the stop flag
    set it adds nothing. It changes nothing else of the tester. *)
Theorem measure_metrics_append_only (self : NetworkTester)
    (ticks : list Q) :
  measure_metrics self ticks =
    with_metrics self
      (metrics self ++
       if stop_event self then []
       else map (fun t => make_sample self (t - start_time self)) ticks).
Proof.
  destruct (stop_event self) eqn:Hs.
  - rewrite measure_metrics_stopped by exact Hs. rewrite app_nil_r.
    destruct self; reflexivity.
  - apply measure_metrics_appends. exact Hs.
Qed.

End SamplerMore.

(** ** The coordinator *)

Module CoordinatorFacts.

Import Client More Coordinator.
Import PyDictFacts TallyFacts SamplerFacts SaveFacts.

Local Open Scope Q_scope.

(** The sender's loop touches neither the received map nor the samples. *)
Lemma send_loop_keeps (envs : list send_env) :
  forall (self : NetworkTester) (w : list (list byte)),
    let self' := fst (fst (send_loop self w envs)) in
    received_packets self' = received_packets self /\
    metrics self' = metrics self /\
    output_file self' = output_file self /\
    (stop_event self = true -> stop_event self' = true).
Proof.
  induction envs as [|e envs IH]; intros self w; cbn [send_loop].
  - destruct (stop_event self) eqn:Hs; cbn; repeat split; intros; congruence.
  - destruct (stop_event self) eqn:Hs;
      [cbn; repeat split; intros; congruence|].
    destruct (Qle_bool _ _); [cbn; repeat split; intros; congruence|].
    destruct (build_packet _ _) as [pk|];
      [|cbn; repeat split; intros; congruence].
    destruct (sendall_ok e); [|cbn; repeat split; intros; congruence].
    match goal with
    | |- context [send_loop ?s1 ?w1 envs] => specialize (IH s1 w1)
    end.
    cbn zeta in IH |- *. destruct IH as (H1 & H2 & H3 & _).
    repeat split; try assumption. congruence.
Qed.

Lemma tally_all_blind (self : NetworkTester) :
  received_packets self = [] -> tally_all self = tally0.
Proof.
  intros Hr. unfold tally_all. rewrite Hr. generalize tally0.
  induction (sent_packets self) as [|[k t] items IH]; intros acc;
    [reflexivity|].
  cbn [fold_left]. apply IH.
Qed.

(** A tick with an empty received map. *)
Lemma make_sample_blind (self : NetworkTester) (e : Q) :
  received_packets self = [] ->
  blind_sample (sent_packets self) (make_sample self e).
Proof.
  intros Hr. pose proof (tally_all_blind self Hr) as Ht.
  unfold blind_sample.
  split; [|split; [|split; [|split; [|split]]]].
  - exists (bandwidth self e). split; [reflexivity|].
    unfold bandwidth. rewrite Hr.
    destruct (negb (Qle_bool e 0)); cbn [to_Q]; [|reflexivity].
    cbn. unfold Qdiv. apply Qmult_0_l.
  - change (PyDict.get (make_sample self e) "Latency(s)"%string)
      with (Some (avg_latency (latencies (tally_all self)))).
    rewrite Ht. reflexivity.
  - change (PyDict.get (make_sample self e) "Jitter(s)"%string)
      with (Some (VFloat (calculate_jitter exact
                            (latencies (tally_all self))))).
    rewrite Ht. reflexivity.
  - change (PyDict.get (make_sample self e) "Packet Loss(%)"%string)
      with (Some (times100 (packet_loss self))).
    unfold packet_loss. rewrite Hr.
    destruct (sent_packets self) as [|kt sent]; [reflexivity|].
    change (0 <? PyDict.len (kt :: sent))%Z
      with (0 <? Z.of_nat (S (length sent)))%Z.
    replace (0 <? Z.of_nat (S (length sent)))%Z with true
      by (symmetry; apply Z.ltb_lt; lia).
    eexists. split; [reflexivity|].
    change (PyDict.len []) with 0%Z. rewrite Z.sub_0_r. field.
    intros H0. unfold Qeq in H0. cbn in H0. lia.
  - change (PyDict.get (make_sample self e) "Corrupt Packets"%string)
      with (Some (VInt (corrupt_packets (tally_all self)))).
    rewrite Ht. reflexivity.
  - change (PyDict.get (make_sample self e) "Out-of-Order Packets"%string)
      with (Some (VInt (out_of_order (tally_all self)))).
    rewrite Ht. reflexivity.
Qed.

(** A step receives nothing, and adds the sample of a sleeping sampler
    that wakes, and no other. *)
Lemma step_blind (sys : system) (ev : event) :
  received_packets (tester sys) = [] ->
  received_packets (tester (step sys ev)) = [] /\
  exists new,
    metrics (tester (step sys ev)) = metrics (tester sys) ++ new /\
    Forall2 blind_sample
      match ev, sampler sys with
      | EvWake _, MSleeping => [sent_packets (tester sys)]
      | _, _ => []
      end new.
Proof.
  intros Hr.
  assert (Hsame : forall sys',
            received_packets (tester sys') = [] ->
            metrics (tester sys') = metrics (tester sys) ->
            received_packets (tester sys') = [] /\
            exists new,
              metrics (tester sys') = metrics (tester sys) ++ new /\
              Forall2 blind_sample [] new).
  { intros sys' H1 H2. split; [exact H1|]. exists [].
    rewrite app_nil_r. split; [exact H2 | constructor]. }
  destruct ev as [ok|e| |t| |]; cbn [step].
  - destruct (sender sys); try (apply Hsame; [exact Hr | reflexivity]).
    destruct ok; apply Hsame; first [exact Hr | reflexivity].
  - destruct (sender sys); try (apply Hsame; [exact Hr | reflexivity]).
    pose proof (send_loop_keeps [e] (tester sys) (wire sys)) as Hk.
    destruct (send_loop (tester sys) (wire sys) [e]) as [[self' w'] ex].
    cbn [fst] in Hk. destruct Hk as (H1 & H2 & _).
    apply Hsame; cbn [tester]; congruence.
  - destruct (sampler sys); apply Hsame; first [exact Hr | reflexivity].
  - destruct (sampler sys); try (apply Hsame; [exact Hr | reflexivity]).
    cbn [tester]. unfold measure_tick.
    cbn [received_packets metrics with_metrics]. split; [exact Hr|].
    eexists. split; [reflexivity|].
    constructor; [|constructor]. apply make_sample_blind. exact Hr.
  - destruct (main sys), (sender sys), (sampler sys);
      try (apply Hsame; [exact Hr | reflexivity]);
      unfold finish; destruct (save_metrics _);
      apply Hsame; first [exact Hr | reflexivity].
  - destruct (main sys); try (apply Hsame; [exact Hr | reflexivity]);
      unfold finish; destruct (save_metrics _);
      apply Hsame; first [exact Hr | reflexivity].
Qed.

Lemma steps_blind (schedule : list event) (sys : system)
    (before : list (PyDict.dict Z Q)) :
  received_packets (tester sys) = [] ->
  Forall2 blind_sample before (metrics (tester sys)) ->
  received_packets (tester (fold_left step schedule sys)) = [] /\
  Forall2 blind_sample (before ++ sent_at_samples sys schedule)
    (metrics (tester (fold_left step schedule sys))).
Proof.
  revert sys before.
  induction schedule as [|ev schedule IH]; intros sys before Hr Hm.
  - cbn [fold_left sent_at_samples]. rewrite app_nil_r. split; assumption.
  - cbn [fold_left sent_at_samples].
    destruct (step_blind sys ev Hr) as (Hr' & new & Hnew & Hb).
    rewrite app_assoc. apply IH; [exact Hr'|].
    rewrite Hnew. apply Forall2_app; assumption.
Qed.

(** X14. [run] never starts the receiver. Under every schedule of the
    threads the received map stays empty, and the samples that [run]
    produces are, one for one and in order, samples taken with nothing
    received from the sent maps that the sampler found: each reports no
    bandwidth, no latency, no jitter, no corrupt and no out-of-order
    packet, and a loss of 0 if the sent map was still empty at that sample
    and of 100 percent if it held a record. *)
Theorem run_is_blind (ps : nat) (dur : Z) (out : string) (t0 : Q)
    (schedule : list event) :
  received_packets (tester (run (init ps dur out t0) schedule)) = [] /\
  Forall2 blind_sample
    (sent_at_samples (start (init ps dur out t0)) schedule)
    (metrics (tester (run (init ps dur out t0) schedule))).
Proof.
  unfold run.
  apply (steps_blind schedule (start (init ps dur out t0)) []);
    [reflexivity | constructor].
Qed.

(** Both kinds of sample occur: a sample taken before the first pass of
    the sender reports a loss of 0, one taken after it a loss of 100
    percent. *)
Example run_is_blind_before_and_after :
  let e := {| now := 1; urandom := [x61; x62]; sendall_ok := true |} in
  let schedule :=
    [EvConnect true; EvCheck; EvWake 1; EvSend e; EvCheck; EvWake 2] in
  let sys := run (init 2 60 "metrics.csv" 0) schedule in
  sent_at_samples (start (init 2 60 "metrics.csv" 0)) schedule
    = [[]; [(0%Z, 1%Q)]] /\
  map (fun s => PyDict.get s "Packet Loss(%)"%string) (metrics (tester sys))
    = [Some (VInt 0); Some (VFloat ((1 - 0) / 1 * 100))].
Proof. cbn zeta. split; vm_compute; reflexivity. Qed.

(** Closes a case in which the samples are as before. *)
Local Ltac stopped_done Hs :=
  cbn [tester sampler stop_event metrics with_stop_event];
  rewrite ?Hs;
  repeat match goal with
         | H : sampler _ = _ |- _ => rewrite H; clear H
         end;
  cbn [tester sampler stop_event metrics with_stop_event];
  split; [first [reflexivity | exact Hs] | lia].

Lemma step_stopped (sys : system) (ev : event) :
  stop_event (tester sys) = true ->
  stop_event (tester (step sys ev)) = true /\
  (length (metrics (tester (step sys ev))) + owed (step sys ev) <=
   length (metrics (tester sys)) + owed sys)%nat.
Proof.
  intros Hs. unfold owed.
  destruct ev as [ok|e| |t| |]; cbn [step].
  - destruct (sender sys); [|stopped_done Hs|stopped_done Hs].
    destruct ok; stopped_done Hs.
  - destruct (sender sys); [stopped_done Hs| |stopped_done Hs].
    pose proof (send_loop_keeps [e] (tester sys) (wire sys)) as Hk.
    destruct (send_loop (tester sys) (wire sys) [e]) as [[self' w'] ex].
    cbn [fst] in Hk. destruct Hk as (_ & H2 & _ & H4).
    cbn [tester sampler]. rewrite H2. split; [apply H4, Hs | lia].
  - destruct (sampler sys) eqn:Hp; stopped_done Hs.
  - destruct (sampler sys) eqn:Hp; [stopped_done Hs| |stopped_done Hs].
    cbn [tester sampler]. unfold measure_tick.
    cbn [stop_event metrics with_metrics]. rewrite length_app. cbn [length].
    split; [exact Hs | lia].
  - destruct (main sys), (sender sys), (sampler sys) eqn:Hp;
      try stopped_done Hs;
      unfold finish; destruct (save_metrics _); stopped_done Hs.
  - destruct (main sys); try stopped_done Hs;
      unfold finish; destruct (save_metrics _); stopped_done Hs.
Qed.

Lemma steps_stopped (evs : list event) :
  forall sys : system,
    stop_event (tester sys) = true ->
    stop_event (tester (fold_left step evs sys)) = true /\
    (length (metrics (tester (fold_left step evs sys))) <=
     length (metrics (tester sys)) + owed sys)%nat.
Proof.
  induction evs as [|ev evs IH]; intros sys Hs; cbn [fold_left].
  - split; [exact Hs | lia].
  - destruct (step_stopped sys ev Hs) as [Hs' Hle].
    destruct (IH (step sys ev) Hs') as [Hs'' Hle'].
    split; [exact Hs'' | lia].
Qed.

(** X15. Once the stop flag is set it stays set, and the sampler appends
    at most one more sample, the one of the sleep it was in: under every
    schedule, the samples at the end are at most one more than when the
    flag was first observed set. *)
Theorem run_stops_sampling (self : NetworkTester)
    (before after : list event) :
  stop_event (tester (run self before)) = true ->
  stop_event (tester (run self (before ++ after))) = true /\
  (length (metrics (tester (run self (before ++ after)))) <=
   length (metrics (tester (run self before))) + 1)%nat.
Proof.
  intros Hs. unfold run in *. rewrite fold_left_app.
  destruct (steps_stopped after _ Hs) as [H1 H2].
  split; [exact H1|]. etransitivity; [exact H2|].
  unfold owed. destruct (sampler _); lia.
Qed.

Lemma run_stops_sampling_witness :
  let self := init 2 60 "metrics.csv" 0 in
  let before := [EvCheck; EvConnect false] in
  let after := [EvWake 1; EvCheck; EvWake 2; EvJoin; EvJoin] in
  stop_event (tester (run self (before ++ after))) = true /\
  (length (metrics (tester (run self (before ++ after)))) <=
   length (metrics (tester (run self before))) + 1)%nat.
Proof.
  intros self before after.
  apply (run_stops_sampling self before after). reflexivity.
Defined.

Lemma finish_settled (out : string) (sys : system) :
  settled out sys ->
  main sys = JoinSampler -> sampler sys = MExited ->
  settled out (finish sys (tester sys)).
Proof.
  intros (Ho & Hm & Hn & Hj & Hf) Hmain Hsamp.
  destruct (Hn ltac:(congruence)) as [Hsv _].
  destruct (Hj Hmain) as [ex Hex].
  unfold finish. destruct (save_metrics (tester sys)) as [file ok] eqn:E.
  unfold settled. cbn [tester main saved save_ok sampler sender].
  split; [exact Ho|]. split; [exact Hm|].
  split; [intros Hx; exfalso; apply Hx; reflexivity|].
  split; [discriminate|].
  intros _. split; [exact Hsamp|]. split; [exists ex; exact Hex|].
  rewrite E, Hsv. destruct file; reflexivity.
Qed.

Lemma settled_update (out : string) (sys sys' : system) :
  settled out sys ->
  main sys <> Finished ->
  main sys' = main sys ->
  saved sys' = saved sys ->
  save_ok sys' = save_ok sys ->
  output_file (tester sys') = output_file (tester sys) ->
  Forall sampled (metrics (tester sys')) ->
  (main sys = JoinSampler -> exists ex, sender sys' = SExited ex) ->
  settled out sys'.
Proof.
  intros (Ho & Hm & Hn & Hj & Hf) Hnf Emain Esaved Eok Eout Hm' Hj'.
  unfold settled. rewrite Emain, Esaved, Eok, Eout.
  split; [exact Ho|]. split; [exact Hm'|]. split; [exact Hn|].
  split; [exact Hj'|]. intros Hx. contradiction.
Qed.

Lemma settled_sender_live (out : string) (sys : system) :
  settled out sys ->
  (forall ex, sender sys <> SExited ex) ->
  main sys <> Finished /\ main sys <> JoinSampler.
Proof.
  intros (_ & _ & _ & Hj & Hf) Hlive. split; intros Hx.
  - destruct (Hf Hx) as (_ & [ex Hex] & _). exact (Hlive ex Hex).
  - destruct (Hj Hx) as [ex Hex]. exact (Hlive ex Hex).
Qed.

Lemma settled_sampler_live (out : string) (sys : system) :
  settled out sys -> sampler sys <> MExited -> main sys <> Finished.
Proof.
  intros (_ & _ & _ & _ & Hf) Hlive Hx.
  destruct (Hf Hx) as (Hex & _). contradiction.
Qed.

Lemma step_settled (out : string) (sys : system) (ev : event) :
  ev <> EvInterrupt -> settled out sys -> settled out (step sys ev).
Proof.
  intros Hev Hall. pose proof Hall as (Ho & Hm & Hn & Hj & Hf).
  destruct ev as [ok|e| |t| |]; cbn [step]; try contradiction.
  - destruct (sender sys) eqn:Hsd; try exact Hall.
    destruct (settled_sender_live out sys Hall) as [Hnf Hnj];
      [intros ex; congruence|].
    destruct ok; apply (settled_update out sys); try assumption;
      try reflexivity; intros Hx; contradiction.
  - destruct (sender sys) eqn:Hsd; try exact Hall.
    destruct (settled_sender_live out sys Hall) as [Hnf Hnj];
      [intros ex; congruence|].
    pose proof (send_loop_keeps [e] (tester sys) (wire sys)) as Hk.
    destruct (send_loop (tester sys) (wire sys) [e]) as [[self' w'] ex].
    cbn [fst] in Hk. destruct Hk as (_ & H2 & H3 & _).
    apply (settled_update out sys); try assumption; try reflexivity.
    + cbn [tester]. rewrite H2. exact Hm.
    + intros Hx. contradiction.
  - destruct (sampler sys) eqn:Hsp; try exact Hall.
    pose proof (settled_sampler_live out sys Hall ltac:(congruence)) as Hnf.
    apply (settled_update out sys); try assumption; reflexivity.
  - destruct (sampler sys) eqn:Hsp; try exact Hall.
    pose proof (settled_sampler_live out sys Hall ltac:(congruence)) as Hnf.
    apply (settled_update out sys); try assumption; try reflexivity.
    cbn [tester]. unfold measure_tick. cbn [metrics with_metrics].
    apply Forall_app. split; [exact Hm|].
    constructor; [|constructor]. eexists. eexists. reflexivity.
  - destruct (main sys) eqn:Hmain.
    + destruct (sender sys) as [| |ex] eqn:Hsd; try exact Hall.
      destruct (Hn ltac:(discriminate)) as [Hsv Hok].
      unfold settled. cbn [tester main saved save_ok sampler sender
                           output_file metrics with_stop_event].
      split; [exact Ho|]. split; [exact Hm|].
      split; [intros _; split; assumption|].
      split; [intros _; exists ex; first [reflexivity | exact Hsd]
             | discriminate].
    + assert (Hsame : forall s : system,
                match sender sys, sampler sys with
                | _, MExited => finish sys (tester sys)
                | _, _ => sys
                end = s ->
                settled out s).
      { intros s <-. destruct (sampler sys) eqn:Hsp;
          try (destruct (sender sys); exact Hall).
        assert (Hfin : settled out (finish sys (tester sys)))
          by (apply finish_settled; assumption).
        destruct (sender sys); exact Hfin. }
      apply Hsame. destruct (sender sys), (sampler sys); reflexivity.
    + destruct (sender sys), (sampler sys); exact Hall.
Qed.

Lemma steps_settled (out : string) (evs : list event) :
  Forall (fun ev => ev <> EvInterrupt) evs ->
  forall sys, settled out sys -> settled out (fold_left step evs sys).
Proof.
  induction 1 as [|ev evs Hev _ IH]; intros sys Hs; [exact Hs|].
  cbn [fold_left]. apply IH, step_settled; assumption.
Qed.

(** Past the first join the stop flag is set. *)
Lemma step_joined (s : system) (ev : event) :
  (main s <> JoinSender -> stop_event (tester s) = true) ->
  main (step s ev) <> JoinSender ->
  stop_event (tester (step s ev)) = true.
Proof.
  intros Hs Hm'. destruct (main s) eqn:Ems.
  - destruct ev as [ok|e| |t| |]; cbn [step] in Hm' |- *.
    + destruct (sender s); try congruence.
      destruct ok; cbn [main] in Hm'; congruence.
    + destruct (sender s); try congruence.
      destruct (send_loop _ _ _) as [[? ?] ?]. cbn [main] in Hm'.
      congruence.
    + destruct (sampler s); cbn [main] in Hm'; congruence.
    + destruct (sampler s); cbn [main] in Hm'; congruence.
    + rewrite Ems in *. destruct (sender s); try congruence. reflexivity.
    + rewrite Ems. unfold finish. destruct (save_metrics _). reflexivity.
  - apply step_stopped, Hs. discriminate.
  - apply step_stopped, Hs. discriminate.
Qed.

Lemma steps_joined (evs : list event) :
  forall s : system,
    (main s <> JoinSender -> stop_event (tester s) = true) ->
    main (fold_left step evs s) <> JoinSender ->
    stop_event (tester (fold_left step evs s)) = true.
Proof.
  induction evs as [|ev evs IH]; intros s Hs Hm; [apply Hs, Hm|].
  cbn [fold_left] in *. apply IH; [|exact Hm].
  apply step_joined, Hs.
Qed.

(** X16. When [run] finishes under a schedule without interrupt, both
    threads have ended, the stop flag is set and the file holds every
    sample of the tester: no file at all when there is none, otherwise the
    header of the seven columns and one row per sample, in order;
    [save_metrics] has not raised. *)
Theorem run_saves_all (ps : nat) (dur : Z) (out : string) (t0 : Q)
    (schedule : list event) :
  Forall (fun ev => ev <> EvInterrupt) schedule ->
  main (run (init ps dur out t0) schedule) = Finished ->
  sampler (run (init ps dur out t0) schedule) = MExited /\
  (exists ex, sender (run (init ps dur out t0) schedule) = SExited ex) /\
  stop_event (tester (run (init ps dur out t0) schedule)) = true /\
  save_ok (run (init ps dur out t0) schedule) = true /\
  saved (run (init ps dur out t0) schedule) =
    match metrics (tester (run (init ps dur out t0) schedule)) with
    | [] => None
    | _ => Some (out,
                 map CName columns
                   :: map row_values
                        (metrics (tester (run (init ps dur out t0)
                                            schedule))))
    end.
Proof.
  intros Hni Hfin.
  assert (H0 : settled out (start (init ps dur out t0))).
  { unfold settled. cbn.
    split; [reflexivity|]. split; [constructor|].
    split; [intros _; split; reflexivity|].
    split; discriminate. }
  pose proof (steps_settled out schedule Hni _ H0) as Hs.
  assert (Hstop : stop_event
                    (tester (run (init ps dur out t0) schedule)) = true).
  { apply steps_joined; [intros Hx; exfalso; apply Hx; reflexivity|].
    unfold run in Hfin. rewrite Hfin. discriminate. }
  unfold run in *.
  set (sys := fold_left step schedule (start (init ps dur out t0))) in *.
  destruct Hs as (Ho & Hm & _ & _ & Hf).
  destruct (Hf Hfin) as (Hsp & Hsd & Hsave).
  split; [exact Hsp|]. split; [exact Hsd|]. split; [exact Hstop|].
  unfold save_metrics in Hsave.
  destruct (metrics (tester sys)) as [|first rows] eqn:Em.
  - injection Hsave as -> ->. split; reflexivity.
  - pose proof Hm as Hm2. apply Forall_cons_iff in Hm2.
    destruct Hm2 as [Hfirst _].
    rewrite (sampled_keys first Hfirst) in Hsave.
    rewrite (writerows_sampled (first :: rows) Hm) in Hsave.
    rewrite Ho in Hsave. injection Hsave as -> ->. split; reflexivity.
Qed.

Lemma run_saves_all_witness :
  let schedule :=
    [EvConnect true; EvCheck;
     EvSend {| now := 1; urandom := [x61; x62]; sendall_ok := true |};
     EvWake 1; EvCheck;
     EvSend {| now := 61; urandom := [x61; x62]; sendall_ok := true |};
     EvJoin; EvWake 2; EvCheck; EvJoin] in
  let sys := run (init 2 60 "metrics.csv" 0) schedule in
  sampler sys = MExited /\
  (exists ex, sender sys = SExited ex) /\
  stop_event (tester sys) = true /\
  save_ok sys = true /\
  saved sys =
    match metrics (tester sys) with
    | [] => None
    | _ => Some ("metrics.csv"%string,
                 map CName columns :: map row_values (metrics (tester sys)))
    end.
Proof.
  intros schedule sys.
  apply (run_saves_all 2 60 "metrics.csv" 0 schedule).
  - repeat constructor; discriminate.
  - vm_compute. reflexivity.
Defined.

(** X17. An interrupt makes [run] save without waiting for the sampler:
    when it is taken while the sampler sleeps, the file (or its absence)
    is that of the samples taken so far, and the sample that the sampler
    appends when it wakes is in no file. *)
Theorem interrupt_skips_sample (sys : system) (t : Q) :
  main sys <> Finished ->
  sampler sys = MSleeping ->
  saved sys = None ->
  Forall sampled (metrics (tester sys)) ->
  let sys' := fold_left step [EvInterrupt; EvWake t] sys in
  main sys' = Finished /\
  metrics (tester sys') =
    metrics (tester sys) ++
    [make_sample (with_stop_event (tester sys) true)
       (t - start_time (tester sys))] /\
  saved sys' =
    match metrics (tester sys) with
    | [] => None
    | _ => Some (output_file (tester sys),
                 map CName columns :: map row_values (metrics (tester sys)))
    end.
Proof.
  intros Hmain Hsp Hsv Hm. cbn [fold_left].
  assert (E : step sys EvInterrupt =
              finish sys (with_stop_event (tester sys) true)).
  { cbn [step]. destruct (main sys); [reflexivity | reflexivity|].
    exfalso. apply Hmain. reflexivity. }
  rewrite E. unfold finish, save_metrics.
  cbn [metrics with_stop_event output_file].
  destruct (metrics (tester sys)) as [|first rows] eqn:Em.
  - cbn [step sampler]. rewrite Hsp. cbn [tester main saved].
    unfold measure_tick. cbn [metrics with_metrics with_stop_event
                              start_time]. rewrite Em, Hsv.
    repeat split.
  - pose proof Hm as Hm2. apply Forall_cons_iff in Hm2.
    destruct Hm2 as [Hfirst _].
    rewrite (sampled_keys first Hfirst).
    rewrite (writerows_sampled (first :: rows) Hm).
    cbn [step sampler]. rewrite Hsp. cbn [tester main saved].
    unfold measure_tick. cbn [metrics with_metrics with_stop_event
                              start_time]. rewrite Em.
    repeat split.
Qed.

Lemma interrupt_skips_sample_witness :
  let sys := run (init 2 60 "metrics.csv" 0) [EvConnect true; EvCheck] in
  let sys' := fold_left step [EvInterrupt; EvWake 1] sys in
  main sys' = Finished /\
  metrics (tester sys') =
    metrics (tester sys) ++
    [make_sample (with_stop_event (tester sys) true)
       (1 - start_time (tester sys))] /\
  saved sys' =
    match metrics (tester sys) with
    | [] => None
    | _ => Some (output_file (tester sys),
                 map CName columns :: map row_values (metrics (tester sys)))
    end.
Proof.
  intros sys.
  apply (interrupt_skips_sample sys 1);
    [discriminate | reflexivity | reflexivity | constructor].
Defined.

End CoordinatorFacts.

(** ** The report generator *)

Module ReportFacts.

Import Ascii Report PyDictFacts.

Local Open Scope string_scope.

Lemma occurs_app (c : ascii) (s1 s2 : string) :
  occurs c (s1 ++ s2) = occurs c s1 || occurs c s2.
Proof.
  induction s1 as [|c1 s1 IH]; cbn [String.append occurs]; [reflexivity|].
  rewrite IH. apply orb_assoc.
Qed.

(** After a replacement the replaced character is gone, unless the new
    text brings it back. *)
Lemma occurs_replace_same (c : ascii) (new s : string) :
  occurs c new = false -> occurs c (replace c new s) = false.
Proof.
  intros Hn. induction s as [|c1 s IH]; cbn [replace occurs]; [reflexivity|].
  destruct (Ascii.eqb c1 c) eqn:E.
  - rewrite occurs_app, Hn, IH. reflexivity.
  - cbn [occurs]. rewrite E, IH. reflexivity.
Qed.

(** A replacement brings in no character that neither the text nor the new
    text had. *)
Lemma occurs_replace_other (c old : ascii) (new s : string) :
  occurs c s = false -> occurs c new = false ->
  occurs c (replace old new s) = false.
Proof.
  intros Hs Hn. induction s as [|c1 s IH]; cbn [replace occurs];
    [reflexivity|].
  cbn [occurs] in Hs. apply orb_false_iff in Hs. destruct Hs as [H1 H2].
  destruct (Ascii.eqb c1 old).
  - rewrite occurs_app, Hn, IH by exact H2. reflexivity.
  - cbn [occurs]. rewrite H1, IH by exact H2. reflexivity.
Qed.

Lemma replace_absent (old : ascii) (new s : string) :
  occurs old s = false -> replace old new s = s.
Proof.
  induction s as [|c1 s IH]; cbn [replace occurs]; [reflexivity|].
  intros Hs. apply orb_false_iff in Hs. destruct Hs as [H1 H2].
  rewrite H1, IH by exact H2. reflexivity.
Qed.

(** Closes [occurs c (replace ... (replace ... s)) = false]. *)
Local Ltac gone :=
  repeat first
    [ apply occurs_replace_same; reflexivity
    | apply occurs_replace_other; [|reflexivity] ].

(** X18. The name of the image written for a metric ends in [.png] and
    holds no slash, parenthesis, percent sign or space, whatever the name
    of the metric; a metric name without these characters is kept as it
    is. *)
Theorem img_file_clean (metric : string) :
  (exists stem, img_file metric = stem ++ ".png" /\
     occurs "/" stem = false /\ occurs "(" stem = false /\
     occurs ")" stem = false /\ occurs "%" stem = false /\
     occurs " " stem = false) /\
  (occurs "/" metric = false -> occurs "(" metric = false ->
   occurs ")" metric = false -> occurs "%" metric = false ->
   occurs " " metric = false -> img_file metric = metric ++ ".png").
Proof.
  split.
  - eexists. split; [reflexivity|].
    split; [gone|]. split; [gone|]. split; [gone|]. split; gone.
  - intros H1 H2 H3 H4 H5. unfold img_file.
    rewrite (replace_absent "/") by exact H1.
    rewrite (replace_absent "(") by exact H2.
    rewrite (replace_absent ")") by exact H3.
    rewrite (replace_absent "%") by exact H4.
    rewrite (replace_absent " ") by exact H5. reflexivity.
Qed.

Lemma img_file_clean_witness :
  (exists stem, img_file "Packet Loss(%)" = stem ++ ".png" /\
     occurs "/" stem = false /\ occurs "(" stem = false /\
     occurs ")" stem = false /\ occurs "%" stem = false /\
     occurs " " stem = false) /\
  img_file "Latency" = "Latency" ++ ".png".
Proof.
  split.
  - exact (proj1 (img_file_clean "Packet Loss(%)")).
  - apply (proj2 (img_file_clean "Latency")); reflexivity.
Defined.

Section Loop.
Variable data : PyDict.dict string (list Q).
Variable time : list Q.

Lemma report_loop (ms : list string) :
  forall (html : string) (plots : list plot),
    Forall (fun p => plot_x p = time /\
                     PyDict.get data (plot_ylabel p) = Some (plot_y p))
           plots ->
    let r := fold_left (report_metric data time) ms (html, plots) in
    map plot_file (snd r) =
      (map plot_file plots ++ map img_file (filter (PyDict.mem data) ms))%list
    /\ map plot_ylabel (snd r) =
      (map plot_ylabel plots ++ filter (PyDict.mem data) ms)%list
    /\ Forall (fun p => plot_x p = time /\
                        PyDict.get data (plot_ylabel p) = Some (plot_y p))
              (snd r).
Proof.
  induction ms as [|m ms IH]; intros html plots Hp; cbn [fold_left].
  - cbn [filter map snd]. rewrite !app_nil_r. repeat split. exact Hp.
  - cbn [filter]. unfold report_metric at 2 4 6. unfold PyDict.mem.
    destruct (PyDict.get data m) as [values|] eqn:Hg.
    + match goal with
      | |- context [fold_left _ ms (?h, ?ps)] => specialize (IH h ps)
      end.
      destruct IH as (IH1 & IH2 & IH3).
      { apply Forall_app. split; [exact Hp|].
        constructor; [|constructor]. split; [reflexivity | exact Hg]. }
      cbn zeta in IH1, IH2, IH3 |- *. split; [|split; [|exact IH3]].
      * rewrite IH1, map_app. cbn [map plot_file].
        rewrite <- app_assoc. reflexivity.
      * rewrite IH2, map_app. cbn [map plot_ylabel].
        rewrite <- app_assoc. reflexivity.
    + apply IH. exact Hp.
Qed.

End Loop.

(** Skipping metrics keeps the image files distinct. *)
Lemma distinct_files_kept (keep : string -> bool) (ms : list string) :
  NoDup (map img_file ms) -> NoDup (map img_file (filter keep ms)).
Proof.
  induction ms as [|m ms IH]; cbn [map filter]; intros Hn; [constructor|].
  apply NoDup_cons_iff in Hn. destruct Hn as [Hm Hms].
  destruct (keep m); [|apply IH, Hms].
  cbn [map]. apply NoDup_cons; [|apply IH, Hms].
  intros Hin. apply Hm. apply in_map_iff in Hin.
  destruct Hin as (m' & Hm' & Hin). apply filter_In in Hin.
  apply in_map_iff. exists m'. tauto.
Qed.

Lemma img_files_distinct : NoDup (map img_file metrics).
Proof.
  vm_compute. repeat constructor; cbn; intuition discriminate.
Qed.

(** X19. Without a Time column, or with an empty one, the report ends
    with exit status 1 and draws nothing. Otherwise it is written with one
    figure for each of the six known metrics that has a column, in the
    fixed order of the list and skipping the others; every figure is drawn
    against the Time column and shows the column of its own metric, and no
    two figures are saved to the same file. *)
Theorem generate_report_figures (data : PyDict.dict string (list Q)) :
  match PyDict.get data "Time" with
  | None | Some [] => generate_report data = Exit1
  | Some time =>
      exists html plots,
        generate_report data = Written html plots /\
        map plot_file plots =
          map img_file (filter (PyDict.mem data) metrics) /\
        map plot_ylabel plots = filter (PyDict.mem data) metrics /\
        Forall (fun p => plot_x p = time /\
                         PyDict.get data (plot_ylabel p) = Some (plot_y p))
               plots /\
        NoDup (map plot_file plots)
  end.
Proof.
  unfold generate_report.
  destruct (PyDict.get data "Time") as [[|t0 time]|]; try reflexivity.
  set (h := ("<html><head><title>Network Metrics Report</title></head><body>"
               ++ "<h1>Network Metrics Report</h1>")).
  pose proof (report_loop data (t0 :: time) metrics h [] (Forall_nil _))
    as (Hfiles & Hlabels & Hdrawn).
  cbn zeta in Hfiles, Hlabels, Hdrawn.
  destruct (fold_left (report_metric data (t0 :: time)) metrics (h, []))
    as [html plots].
  cbn [snd map app] in Hfiles, Hlabels, Hdrawn.
  exists (html ++ "</body></html>"), plots.
  split; [reflexivity|]. split; [exact Hfiles|].
  split; [exact Hlabels|]. split; [exact Hdrawn|].
  rewrite Hfiles. apply distinct_files_kept, img_files_distinct.
Qed.

End ReportFacts.
